(** * The interaction-response state machine of [discord_slash/context.py]

    A shallow embedding of [InteractionContext], [ComponentContext] and
    [MenuContext]: the [deferred] / [responded] flags, the argument checks of
    [send] and [edit_origin], the requests handed to the HTTP dispatcher, and
    the confirmation prompt built on top of them.

    Python objects that the methods mutate are threaded as explicit state; an
    exception leaves in place every assignment made before it was raised, so
    the monad below returns the state next to the outcome in both cases. *)

From Stdlib Require Import ZArith String DecimalString List Bool Lia.
From Stdlib Require Import Floats.PrimFloat.
Import ListNotations.

Set Warnings "-register-all".

Local Open Scope string_scope.
Local Open Scope Z_scope.

(** ** Python values *)

(** JSON-like values: the payloads given to, and returned by, the dispatcher.
    A [dict] keeps its insertion order, hence the association list. *)
Inductive Json : Type :=
| JNone
| JBool (b : bool)
| JInt (z : Z)
| JStr (s : string)
| JList (l : list Json)
| JDict (kv : list (string * Json)).

Definition Dict : Type := list (string * Json).

(** [d.get(k)] *)
Fixpoint dict_get (k : string) (d : Dict) : option Json :=
  match d with
  | [] => None
  | (k', v) :: rest => if String.eqb k k' then Some v else dict_get k rest
  end.

(** [k in d] *)
Definition dict_mem (k : string) (d : Dict) : bool :=
  match dict_get k d with Some _ => true | None => false end.

(** [d[k] = v]: an existing key keeps its position. *)
Fixpoint dict_set (k : string) (v : Json) (d : Dict) : Dict :=
  match d with
  | [] => [(k, v)]
  | (k', v') :: rest =>
      if String.eqb k k' then (k, v) :: rest else (k', v') :: dict_set k v rest
  end.

(** Truth value of a JSON value ([if x:]). *)
Definition json_truthy (j : Json) : bool :=
  match j with
  | JNone => false
  | JBool b => b
  | JInt z => negb (z =? 0)
  | JStr s => negb (String.eqb s "")
  | JList l => match l with [] => false | _ => true end
  | JDict kv => match kv with [] => false | _ => true end
  end.

(** [x == 1] for the value of [comp.get("type")]; [True == 1] in Python. *)
Definition eq_one (j : option Json) : bool :=
  match j with
  | Some (JInt z) => z =? 1
  | Some (JBool b) => b
  | _ => false
  end.

(** Truth value of an optional list ([None] and [[]] are both false). *)
Definition list_truthy {A : Type} (l : option (list A)) : bool :=
  match l with
  | Some (_ :: _) => true
  | _ => false
  end.

(** The elements of an optional list. *)
Definition items {A : Type} (o : option (list A)) : list A :=
  match o with Some l => l | None => [] end.

(** A boolean keyword whose default is [False]. *)
Definition keyword (o : option bool) : bool :=
  match o with Some b => b | None => false end.

(** Truth value of an optional object without [__bool__] / [__len__]. *)
Definition obj_truthy {A : Type} (o : option A) : bool :=
  match o with Some _ => true | None => false end.

(** Truth value of an optional number: [None] and zero are false. *)
Definition float_truthy (d : option float) : bool :=
  match d with
  | Some x => negb (PrimFloat.eqb x 0%float)
  | None => false
  end.

(** ** Objects of discord.py that the contexts handle *)

(** [discord.Embed], reduced to the attributes the module assigns. *)
Record Embed : Type := {
  title : option string;
  description : option string;
  color : option Z;
  footer : option string
}.

(** [discord.File]: only its identity matters, [close()] is logged. *)
Record File : Type := { filename : string }.

(** The [embeds] argument: the code checks at run time that it is a list, so
    a sequence that is not one (a tuple) is a possible value. *)
Inductive Embeds : Type :=
| EmbedsNone
| EmbedsList (l : list Embed)
| EmbedsTuple (l : list Embed).

Definition embeds_items (e : Embeds) : list Embed :=
  match e with
  | EmbedsNone => []
  | EmbedsList l | EmbedsTuple l => l
  end.

Definition embeds_truthy (e : Embeds) : bool :=
  match embeds_items e with [] => false | _ => true end.

Definition embeds_is_list (e : Embeds) : bool :=
  match e with EmbedsList _ => true | _ => false end.

(** Modelled from the spec: [model.SlashMessage] is not among the sources;
    it is the message object built from the response [data] of a request,
    with the embeds read out of it and the interaction token to act on it
    later. The model passes it by value: [_cleanup] edits the embeds of the
    object it was given, and what it then submits are the edited embeds. *)
Record SlashMessage : Type := {
  msg_data : Json;
  msg_embeds : list Embed;
  msg_token : string
}.

(** ** Requests, events and exceptions *)

(** The three entry points of [http.SlashCommandRequest] the contexts use,
    and the request a [SlashMessage.delete] comes down to. *)
Inductive Request : Type :=
| post_initial_response (body : Dict) (interaction_id : Z) (token : string)
| edit (body : Dict) (token : string) (files : option (list File))
| post_followup (body : Dict) (token : string) (files : option (list File))
| delete_message (m : SlashMessage).

(** Everything a method does to the outside world, newest first. *)
Inductive Event : Type :=
| Http (r : Request)
| Warning (msg : string)
| LogException
| Close (f : File)
| CreateTask (m : SlashMessage) (delay : float).

Inductive Exc : Type :=
| AlreadyResponded (msg : string)
| IncorrectFormat (msg : string)
| AttributeError (msg : string)
| KeyError (key : string)
| IndexError
| HTTPException (status : Z)
| TypeError (msg : string)
| ValueError (msg : string)
| CancelledError
| TimeoutError.

Inductive Outcome (A : Type) : Type :=
| Returned (a : A)
| Raised (e : Exc).
Arguments Returned {A} a.
Arguments Raised {A} e.

(** The outbound requests of a log, and their number. *)
Fixpoint requests (l : list Event) : list Request :=
  match l with
  | [] => []
  | Http r :: rest => r :: requests rest
  | _ :: rest => requests rest
  end.

Definition count_requests (l : list Event) : nat := length (requests l).

(** The delayed-delete tasks of a log. *)
Fixpoint tasks (l : list Event) : list (SlashMessage * float) :=
  match l with
  | [] => []
  | CreateTask m d :: rest => (m, d) :: tasks rest
  | _ :: rest => tasks rest
  end.

(** ** Computations that may raise

    [M S A] is a method body over a mutable state [S]: it returns or raises,
    and hands back the state in both cases. *)
Definition M (S A : Type) : Type := S -> Outcome A * S.

Definition ret {S A} (a : A) : M S A := fun s => (Returned a, s).

Definition raise {S A} (e : Exc) : M S A := fun s => (Raised e, s).

Definition bind {S A B} (m : M S A) (k : A -> M S B) : M S B :=
  fun s =>
    match m s with
    | (Returned a, s') => k a s'
    | (Raised e, s') => (Raised e, s')
    end.

Definition when {S} (b : bool) (m : M S unit) : M S unit :=
  if b then m else ret tt.

(** A computation that touches no state. *)
Definition lift {S A} (o : Outcome A) : M S A := fun s => (o, s).

(** Sequencing of stateless steps. *)
Definition and_then {A B} (o : Outcome A) (k : A -> Outcome B) : Outcome B :=
  match o with
  | Returned a => k a
  | Raised e => Raised e
  end.

Declare Scope py_scope.
Delimit Scope py_scope with py.
Notation "x <- m ;; k" := (bind m (fun x => k))
  (at level 61, m at next level, right associativity) : py_scope.
Notation "m ;; k" := (bind m (fun _ => k))
  (at level 61, right associativity) : py_scope.
Notation "o >>= k" := (and_then o k)
  (at level 62, left associativity) : py_scope.
Local Open Scope py_scope.

(** ** The collaborators *)

(** What the module takes from discord.py and from the HTTP dispatcher
    ([http.SlashCommandRequest]). Their code is not among the sources this
    development embeds, so they are parameters of the model. *)
Class Discord : Type := {
  (** [discord.AllowedMentions] with [merge] and [to_dict] *)
  AllowedMentions : Type;
  merge : AllowedMentions -> AllowedMentions -> AllowedMentions;
  mentions_to_dict : AllowedMentions -> Json;
  (** truth value and [to_dict] of a [discord.Embed] *)
  embed_truthy : Embed -> bool;
  embed_to_dict : Embed -> Json;
  (** the embeds [SlashMessage] reads out of response data *)
  embeds_of_data : Json -> list Embed;
  (** [time.strftime(..., time.localtime())] *)
  strftime_now : string;
  (** the dispatcher: the reply to a request, given what happened so far; it
      may raise, and a cancellation of the awaiting task surfaces here too *)
  http : list Event -> Request -> Outcome Json
}.

(** ** Contexts *)

Inductive ContextClass : Type :=
| InteractionContext
| SlashContext
| ComponentContext
| MenuContext.

(** The attributes of a context that the response methods read or assign.
    [cls] is the class of the object, which decides what [self.defer],
    [self.send] and [self.edit_origin] resolve to; [custom_id] matters for a
    component context only, and [_deferred_edit_origin] is assigned by the
    [defer] of component and menu contexts before anything reads it. *)
Record Ctx `{Discord} : Type := {
  cls : ContextClass;
  _token : string;
  interaction_id : Z;
  channel_id : Z;
  author_id : Z;
  custom_id : string;
  bot_allowed_mentions : option AllowedMentions;
  message : option SlashMessage;
  deferred : bool;
  responded : bool;
  _deferred_hidden : bool;
  _deferred_edit_origin : bool
}.

Section Machine.
Context `{D : Discord}.

(** The object a method runs on together with the event log. *)
Record State : Type := { self : Ctx; log : list Event }.

Definition get : M State Ctx := fun s => (Returned (self s), s).

Definition emit (e : Event) : M State unit :=
  fun s => (Returned tt, {| self := self s; log := e :: log s |}).

(** [await self._http.<request>]: the request is logged, then answered. *)
Definition await (r : Request) : M State Json :=
  fun s => (http (log s) r, {| self := self s; log := Http r :: log s |}).

(** Attribute assignments on [self]. *)
Definition with_deferred (b : bool) (c : Ctx) : Ctx :=
  {| cls := cls c; _token := _token c; interaction_id := interaction_id c;
     channel_id := channel_id c; author_id := author_id c;
     custom_id := custom_id c;
     bot_allowed_mentions := bot_allowed_mentions c; message := message c;
     deferred := b; responded := responded c;
     _deferred_hidden := _deferred_hidden c;
     _deferred_edit_origin := _deferred_edit_origin c |}.

Definition with_responded (b : bool) (c : Ctx) : Ctx :=
  {| cls := cls c; _token := _token c; interaction_id := interaction_id c;
     channel_id := channel_id c; author_id := author_id c;
     custom_id := custom_id c;
     bot_allowed_mentions := bot_allowed_mentions c; message := message c;
     deferred := deferred c; responded := b;
     _deferred_hidden := _deferred_hidden c;
     _deferred_edit_origin := _deferred_edit_origin c |}.

Definition with_deferred_hidden (b : bool) (c : Ctx) : Ctx :=
  {| cls := cls c; _token := _token c; interaction_id := interaction_id c;
     channel_id := channel_id c; author_id := author_id c;
     custom_id := custom_id c;
     bot_allowed_mentions := bot_allowed_mentions c; message := message c;
     deferred := deferred c; responded := responded c;
     _deferred_hidden := b;
     _deferred_edit_origin := _deferred_edit_origin c |}.

Definition with_deferred_edit_origin (b : bool) (c : Ctx) : Ctx :=
  {| cls := cls c; _token := _token c; interaction_id := interaction_id c;
     channel_id := channel_id c; author_id := author_id c;
     custom_id := custom_id c;
     bot_allowed_mentions := bot_allowed_mentions c; message := message c;
     deferred := deferred c; responded := responded c;
     _deferred_hidden := _deferred_hidden c;
     _deferred_edit_origin := b |}.

Definition with_message (m : SlashMessage) (c : Ctx) : Ctx :=
  {| cls := cls c; _token := _token c; interaction_id := interaction_id c;
     channel_id := channel_id c; author_id := author_id c;
     custom_id := custom_id c;
     bot_allowed_mentions := bot_allowed_mentions c; message := Some m;
     deferred := deferred c; responded := responded c;
     _deferred_hidden := _deferred_hidden c;
     _deferred_edit_origin := _deferred_edit_origin c |}.

Definition assign (f : Ctx -> Ctx) : M State unit :=
  fun s => (Returned tt, {| self := f (self s); log := log s |}).

(** *** [defer] *)

Definition already_responded_msg : string :=
  "You have already responded to this command!".

(** [InteractionContext.defer(hidden)], inherited by [SlashContext]. *)
Definition InteractionContext_defer (hidden : bool) : M State unit :=
  c <- get ;;
  when (deferred c || responded c)
    (raise (AlreadyResponded already_responded_msg)) ;;
  let base : Dict := [("type", JInt 5)] in
  base <- (if hidden
           then assign (with_deferred_hidden true) ;;
                ret (dict_set "data" (JDict [("flags", JInt 64)]) base)
           else ret base) ;;
  _ <- await (post_initial_response base (interaction_id c) (_token c)) ;;
  assign (with_deferred true).

(** [ComponentContext.defer(hidden, edit_origin, ignore)]. *)
Definition ComponentContext_defer (hidden edit_origin ignore : bool)
  : M State unit :=
  c <- get ;;
  when (deferred c || responded c)
    (raise (AlreadyResponded already_responded_msg)) ;;
  let base : Dict := [("type", JInt (if edit_origin || ignore then 6 else 5))] in
  when (edit_origin && ignore)
    (raise (IncorrectFormat
              "'edit_origin' and 'ignore' are mutually exclusive")) ;;
  base <- (if hidden
           then if edit_origin
                then raise (IncorrectFormat
                       "'hidden' and 'edit_origin' flags are mutually exclusive")
                else if ignore
                then assign (with_deferred_hidden true) ;; ret base
                else assign (with_deferred_hidden true) ;;
                     ret (dict_set "data" (JDict [("flags", JInt 64)]) base)
           else ret base) ;;
  assign (with_deferred_edit_origin edit_origin) ;;
  _ <- await (post_initial_response base (interaction_id c) (_token c)) ;;
  assign (with_deferred (negb ignore)) ;;
  when ignore (assign (with_responded true)).

(** [MenuContext.defer] repeats the body of [ComponentContext.defer]. *)
Definition MenuContext_defer (hidden edit_origin ignore : bool)
  : M State unit :=
  ComponentContext_defer hidden edit_origin ignore.

(** [self.defer(...)] as the class of [self] resolves it. A keyword the
    method does not declare is a [TypeError]; [None] is a keyword left out. *)
Definition self_defer (hidden : bool) (edit_origin ignore : option bool)
  : M State unit :=
  c <- get ;;
  match cls c with
  | InteractionContext | SlashContext =>
      match edit_origin, ignore with
      | None, None => InteractionContext_defer hidden
      | _, _ => raise (TypeError "defer() got an unexpected keyword argument")
      end
  | ComponentContext =>
      ComponentContext_defer hidden (keyword edit_origin) (keyword ignore)
  | MenuContext =>
      MenuContext_defer hidden (keyword edit_origin) (keyword ignore)
  end.

(** *** [send] *)

Record SendArgs : Type := {
  content : string;
  embed : option Embed;
  embeds : Embeds;
  tts : bool;
  file : option File;
  files : option (list File);
  allowed_mentions : option AllowedMentions;
  hidden : bool;
  delete_after : option float;
  components : option (list Dict)
}.

(** [send] returns the [SlashMessage] it built, or the dictionary [resp]. *)
Inductive SendResult : Type :=
| SentMessage (m : SlashMessage)
| RawResponse (resp : Json).

Definition embed_given (e : option Embed) : bool :=
  match e with Some x => embed_truthy x | None => false end.

Definition is_action_row (comp : Dict) : bool := eq_one (dict_get "type" comp).

(** The argument checks at the head of [send], in source order. They read no
    state; on success they yield [embeds] and [files] as reassigned. *)
Definition send_checks (a : SendArgs)
  : Outcome (Embeds * option (list File)) :=
  if embed_given (embed a) && embeds_truthy (embeds a)
  then Raised (IncorrectFormat "You can't use both `embed` and `embeds`!")
  else
  let embeds' :=
    match embed a with
    | Some e => if embed_truthy e then EmbedsList [e] else embeds a
    | None => embeds a
    end in
  if embeds_truthy embeds' && negb (embeds_is_list embeds')
  then Raised (IncorrectFormat "Provide a list of embeds.")
  else if embeds_truthy embeds' && (10 <? length (embeds_items embeds'))%nat
  then Raised (IncorrectFormat "Do not provide more than 10 embeds.")
  else if obj_truthy (file a) && list_truthy (files a)
  then Raised (IncorrectFormat "You can't use both `file` and `files`!")
  else
  let files' :=
    match file a with
    | Some f => Some [f]
    | None => files a
    end in
  if float_truthy (delete_after a) && hidden a
  then Raised (IncorrectFormat "You can't delete a hidden message!")
  else if list_truthy (components a)
          && negb (forallb is_action_row (items (components a)))
  then Raised (IncorrectFormat
         "The top level of the components list must be made of ActionRows!")
  else Returned (embeds', files').

(** The [allowed_mentions] entry, merged with the bot-level setting. *)
Definition mentions_entry (bot call : option AllowedMentions) : Json :=
  match call, bot with
  | Some am, Some b => mentions_to_dict (merge b am)
  | Some am, None => mentions_to_dict am
  | None, Some b => mentions_to_dict b
  | None, None => JDict []
  end.

(** The dictionary [base] of [send]. *)
Definition send_base (c : Ctx) (a : SendArgs) (embeds' : Embeds) : Dict :=
  let base : Dict :=
    [ ("content", JStr (content a));
      ("tts", JBool (tts a));
      ("embeds", JList (if embeds_truthy embeds'
                        then map embed_to_dict (embeds_items embeds')
                        else []));
      ("allowed_mentions",
        mentions_entry (bot_allowed_mentions c) (allowed_mentions a));
      ("components", JList (if list_truthy (components a)
                            then map JDict (items (components a))
                            else [])) ] in
  if hidden a then dict_set "flags" (JInt 64) base else base.

Fixpoint close_all (fs : list File) : M State unit :=
  match fs with
  | [] => ret tt
  | f :: rest => emit (Close f) ;; close_all rest
  end.

Definition hidden_mismatch_msg : string :=
  "Deferred response might not be what you set it to! (hidden / visible) This is because it was deferred in a different state.".

Definition edit_origin_mismatch_msg : string :=
  "Deferred response might not be what you set it to! (edit origin / send response message) This is because it was deferred with different response type.".

(** [model.SlashMessage(state=..., data=resp, ...)] *)
Definition make_message (c : Ctx) (resp : Json) : SlashMessage :=
  {| msg_data := resp; msg_embeds := embeds_of_data resp;
     msg_token := _token c |}.

(** [InteractionContext.send], inherited by [SlashContext]. *)
Definition InteractionContext_send (a : SendArgs) : M State SendResult :=
  checked <- lift (send_checks a) ;;
  let '(embeds', files') := checked in
  c <- get ;;
  let base := send_base c a embeds' in
  r <- (if negb (responded c)
        then
          when (list_truthy files' && negb (deferred c))
            (self_defer (hidden a) None None) ;;
          c1 <- get ;;
          resp <- (if deferred c1
                   then
                     when (negb (Bool.eqb (_deferred_hidden c1) (hidden a)))
                       (emit (Warning hidden_mismatch_msg)) ;;
                     resp <- await (edit base (_token c1) files') ;;
                     assign (with_deferred false) ;;
                     ret resp
                   else
                     let json_data : Dict :=
                       [("type", JInt 4); ("data", JDict base)] in
                     _ <- await (post_initial_response json_data
                                   (interaction_id c1) (_token c1)) ;;
                     if negb (hidden a)
                     then await (edit [] (_token c1) None)
                     else ret (JDict [])) ;;
          assign (with_responded true) ;;
          ret (true, resp)
        else
          resp <- await (post_followup base (_token c) files') ;;
          ret (false, resp)) ;;
  let '(initial_message, resp) := r in
  when (list_truthy files') (close_all (items files')) ;;
  if negb (hidden a)
  then
    c2 <- get ;;
    let smsg := make_message c2 resp in
    match delete_after a with
    | Some d => when (float_truthy (Some d)) (emit (CreateTask smsg d))
    | None => ret tt
    end ;;
    when initial_message (assign (with_message smsg)) ;;
    ret (SentMessage smsg)
  else ret (RawResponse resp).

(** [ComponentContext.send]: one more warning, then the inherited method. *)
Definition ComponentContext_send (a : SendArgs) : M State SendResult :=
  c <- get ;;
  when (deferred c && _deferred_edit_origin c)
    (emit (Warning edit_origin_mismatch_msg)) ;;
  InteractionContext_send a.

(** [MenuContext.send] repeats the body of [ComponentContext.send]. *)
Definition MenuContext_send (a : SendArgs) : M State SendResult :=
  ComponentContext_send a.

(** [self.send(...)] as the class of [self] resolves it. *)
Definition self_send (a : SendArgs) : M State SendResult :=
  c <- get ;;
  match cls c with
  | InteractionContext | SlashContext => InteractionContext_send a
  | ComponentContext => ComponentContext_send a
  | MenuContext => MenuContext_send a
  end.

(** *** [edit_origin] *)

(** The keyword arguments [fields]. For [content], [components], [embeds]
    and [embed] the method tells a missing key from a key bound to [None]:
    the outer [option] is the presence of the key. [file], [files] and
    [allowed_mentions] are read with [fields.get]. *)
Record Fields : Type := {
  f_content : option (option string);
  f_components : option (option (list Dict));
  f_embeds : option Embeds;
  f_embed : option (option Embed);
  f_file : option File;
  f_files : option (list File);
  f_allowed_mentions : option AllowedMentions
}.

(** The part of [edit_origin] before it looks at the flags: it builds
    [_resp], checks the arguments and settles [files]. *)
Definition edit_origin_fields (c : Ctx) (f : Fields)
  : Outcome (Dict * option (list File)) :=
  let _resp : Dict := [] in
  let _resp :=
    match f_content f with
    | None => _resp
    | Some None => dict_set "content" JNone _resp
    | Some (Some text) => dict_set "content" (JStr text) _resp
    end in
  let _resp :=
    match f_components f with
    | None => _resp
    | Some comps => dict_set "components" (JList (map JDict (items comps))) _resp
    end in
  match f_embeds f with
  | Some e =>
      if negb (embeds_is_list e)
      then Raised (IncorrectFormat "Provide a list of embeds.")
      else if (10 <? length (embeds_items e))%nat
      then Raised (IncorrectFormat "Do not provide more than 10 embeds.")
      else Returned
             (dict_set "embeds" (JList (map embed_to_dict (embeds_items e)))
                _resp)
  | None => Returned _resp
  end >>= fun _resp =>
  match f_embed f with
  | Some e =>
      if dict_mem "embeds" _resp
      then Raised (IncorrectFormat "You can't use both `embed` and `embeds`!")
      else Returned
             (dict_set "embeds"
                (JList match e with
                       | None => []
                       | Some x => [embed_to_dict x]
                       end) _resp)
  | None => Returned _resp
  end >>= fun _resp =>
  if obj_truthy (f_files f) && obj_truthy (f_file f)
  then Raised (IncorrectFormat "You can't use both `file` and `files`!")
  else
  let files' :=
    match f_file f with
    | Some x => Some [x]
    | None => f_files f
    end in
  Returned
    (dict_set "allowed_mentions"
       (mentions_entry (bot_allowed_mentions c) (f_allowed_mentions f)) _resp,
     files').

(** [ComponentContext.edit_origin], called with keyword arguments. *)
Definition ComponentContext_edit_origin (f : Fields) : M State unit :=
  c <- get ;;
  checked <- lift (edit_origin_fields c f) ;;
  let '(_resp, files') := checked in
  (if negb (responded c)
   then
     when (list_truthy files' && negb (deferred c))
       (self_defer false (Some true) None) ;;
     c1 <- get ;;
     (if deferred c1
      then
        when (negb (_deferred_edit_origin c1))
          (emit (Warning edit_origin_mismatch_msg)) ;;
        _ <- await (edit _resp (_token c1) files') ;;
        assign (with_deferred false)
      else
        let json_data : Dict := [("type", JInt 7); ("data", JDict _resp)] in
        _ <- await (post_initial_response json_data
                      (interaction_id c1) (_token c1)) ;;
        ret tt) ;;
     assign (with_responded true)
   else raise (IncorrectFormat "Already responded")) ;;
  when (list_truthy files') (close_all (items files')).

(** [self.edit_origin(...)]: only [ComponentContext] defines the method. *)
Definition self_edit_origin (f : Fields) : M State unit :=
  c <- get ;;
  match cls c with
  | ComponentContext => ComponentContext_edit_origin f
  | _ => raise (AttributeError "object has no attribute 'edit_origin'")
  end.

(** *** Calls made by a command callback *)

(** One call on a context, as a callback may issue it. *)
Inductive Call : Type :=
| CallDefer (hidden : bool) (edit_origin ignore : option bool)
| CallSend (a : SendArgs)
| CallEditOrigin (f : Fields).

Definition perform (op : Call) : M State unit :=
  match op with
  | CallDefer h e i => self_defer h e i
  | CallSend a => _ <- self_send a ;; ret tt
  | CallEditOrigin f => self_edit_origin f
  end.

(** A callback issues its calls in order; one that raised may have been
    caught, so the next call runs on whatever state the last one left. *)
Fixpoint run_calls (ops : list Call) (s : State) : State :=
  match ops with
  | [] => s
  | op :: rest => run_calls rest (snd (perform op s))
  end.

(** *** The confirmation prompt *)

(** [discord.Color.green()], [.red()], [.orange()], [.greyple()] *)
Definition Color_green : Z := 3066993.
Definition Color_red : Z := 15158332.
Definition Color_orange : Z := 15105570.
Definition Color_greyple : Z := 10070709.

Inductive EmbedType : Type := success | error | warning.

Definition EmbedType_value (t : EmbedType) : Z * string :=
  match t with
  | success => (Color_green, "Success!")
  | error => (Color_red, "Error!")
  | warning => (Color_orange, "Warning!")
  end.

Definition newline : string := String (Ascii.ascii_of_nat 10) "".

(** [generate_result_embed(message, result_type, contact_me=...)]. The module
    never passes [title], so the enum's own title is the one used. *)
Definition generate_result_embed (message : string) (result_type : EmbedType)
    (contact_me : bool) : Embed :=
  let '(c, t) := EmbedType_value result_type in
  {| title := Some t;
     description :=
       Some (if contact_me
             then message ++ newline ++ newline
                  ++ "If you need more help, contact <@393801572858986496>."
             else message);
     color := Some c;
     footer := Some strftime_now |}.

(** What [prompt] keeps of the value [send] returned: the message object,
    the integer id read out of a response dictionary, or [None]. *)
Inductive MessageRef : Type :=
| MessageObject (m : SlashMessage)
| MessageId (id : Z)
| NoMessage.

(** [int(x)] *)
Definition py_int (j : Json) : Outcome Z :=
  match j with
  | JInt z => Returned z
  | JBool b => Returned (if b then 1 else 0)
  | JStr s =>
      match NilZero.int_of_string s with
      | Some d => Returned (Z.of_int d)
      | None => Raised (ValueError "invalid literal for int()")
      end
  | _ => Raised (TypeError "int() argument must be a string or a number")
  end.

(** [_message if isinstance(_message, SlashMessage) else
     int(_message["id"]) if _message else None] *)
Definition message_ref (r : SendResult) : Outcome MessageRef :=
  match r with
  | SentMessage m => Returned (MessageObject m)
  | RawResponse resp =>
      if json_truthy resp
      then match resp with
           | JDict kv =>
               match dict_get "id" kv with
               | Some v => py_int v >>= fun z => Returned (MessageId z)
               | None => Raised (KeyError "id")
               end
           | _ => Raised (TypeError "object is not subscriptable")
           end
      else Returned NoMessage
  end.

(** Modelled from the spec: [utils.manage_components] is not among the
    sources; a button is a component dictionary and an action row is the
    container of type 1 that the top level of [components] must be made of. *)
Definition create_button (style : Z) (emoji : string) (id : string) : Dict :=
  [ ("type", JInt 2); ("style", JInt style); ("emoji", JStr emoji);
    ("custom_id", JStr id) ].

Definition create_actionrow (buttons : list Dict) : Dict :=
  [ ("type", JInt 1); ("components", JList (map JDict buttons)) ].

(** [button["disabled"] = True] for every button of every row. *)
Definition disable_button (b : Json) : Outcome Json :=
  match b with
  | JDict kv => Returned (JDict (dict_set "disabled" (JBool true) kv))
  | _ => Raised (TypeError "object does not support item assignment")
  end.

Fixpoint disable_buttons (bs : list Json) : Outcome (list Json) :=
  match bs with
  | [] => Returned []
  | b :: rest =>
      disable_button b >>= fun b' =>
      disable_buttons rest >>= fun rest' => Returned (b' :: rest')
  end.

Definition disable_row (row : Dict) : Outcome Dict :=
  match dict_get "components" row with
  | None => Raised (KeyError "components")
  | Some (JList bs) =>
      disable_buttons bs >>= fun bs' =>
      Returned (dict_set "components" (JList bs') row)
  | Some _ => Raised (TypeError "object is not a list of buttons")
  end.

Fixpoint disable_rows (rows : list Dict) : Outcome (list Dict) :=
  match rows with
  | [] => Returned []
  | row :: rest =>
      disable_row row >>= fun row' =>
      disable_rows rest >>= fun rest' => Returned (row' :: rest')
  end.

(** [message.embeds[0].color, message.embeds[0].title = {...}[confirm]] *)
Definition verdict (confirm : option bool) (expired : bool) : Z * string :=
  match confirm with
  | Some true => (Color_green, "Confirmed: ✅")
  | Some false => (Color_red, "Not Confirmed: ❌")
  | None => (Color_greyple,
             if expired then "Not Confirmed: Took too long"
             else "Not Confirmed: Canceled")
  end.

Definition recolor (message : MessageRef) (confirm : option bool)
    (expired : bool) : Outcome SlashMessage :=
  match message with
  | MessageObject m =>
      match msg_embeds m with
      | [] => Raised IndexError
      | e :: rest =>
          let '(c, t) := verdict confirm expired in
          Returned {| msg_data := msg_data m;
                      msg_embeds :=
                        {| title := Some t; description := description e;
                           color := Some c; footer := footer e |} :: rest;
                      msg_token := msg_token m |}
      end
  | _ => Raised (AttributeError "object has no attribute 'embeds'")
  end.

(** [await message.delete()]: a request when [message] is a message
    object, an [AttributeError] when it is an integer or [None]. *)
Definition message_delete (message : MessageRef) : M State unit :=
  match message with
  | MessageObject m => _ <- await (delete_message m) ;; ret tt
  | _ => raise (AttributeError "object has no attribute 'delete'")
  end.

Definition plain_send (e : Embed) (h : bool) (d : option float)
    (comps : option (list Dict)) : SendArgs :=
  {| content := ""; embed := Some e; embeds := EmbedsNone; tts := false;
     file := None; files := None; allowed_mentions := None; hidden := h;
     delete_after := d; components := comps |}.

(** [_cleanup(context, message, buttons, confirm, delete_after, expired,
    hidden)]; [context] is the [self] of the state it runs on. *)
Definition _cleanup (message : MessageRef) (buttons : list Dict)
    (confirm : option bool) (delete_after expired hidden : bool)
  : M State unit :=
  when (hidden || delete_after)
    (_ <- self_send
            (plain_send
               (generate_result_embed
                  (match confirm with
                   | Some true => "Confirmed: ✅"
                   | _ => "Not Confirmed: ❌"
                   end) success false)
               hidden
               (if hidden then None
                else if delete_after then Some 10%float else None)
               None) ;;
     ret tt) ;;
  if delete_after
  then message_delete message
  else
    buttons' <- lift (disable_rows buttons) ;;
    message' <- lift (recolor message confirm expired) ;;
    self_edit_origin
      {| f_content := None; f_components := Some (Some buttons');
         f_embeds := Some (EmbedsList (msg_embeds message'));
         f_embed := None; f_file := None; f_files := None;
         f_allowed_mentions := None |}.

(** [try: body except ...: handler] *)
Definition try_except {A} (body : M State A) (handler : Exc -> M State A)
  : M State A :=
  fun s =>
    match body s with
    | (Returned a, s') => (Returned a, s')
    | (Raised e, s') => handler e s'
    end.

(** [try: body finally: return a] -- the [return] discards what [body]
    raised. *)
Definition finally_return {A B} (body : M State B) (a : A) : M State A :=
  fun s => (Returned a, snd (body s)).

(** A method call on another context object; the log is shared. *)
Definition on {A} (c : Ctx) (m : M State A) : M State (A * Ctx) :=
  fun s =>
    match m {| self := c; log := log s |} with
    | (Returned a, s') =>
        (Returned (a, self s'), {| self := self s; log := log s' |})
    | (Raised e, s') => (Raised e, {| self := self s; log := log s' |})
    end.

(** A component interaction reaching the bot while [prompt] waits, and
    whether it comes from the awaited message and buttons. *)
Record Arrival : Type := { payload : Ctx; wanted : bool }.

(** The closure [check] of [prompt]; [confirm] is its [nonlocal]. *)
Definition check (author : Z) (p : Ctx) (confirm : option bool)
  : bool * option bool :=
  if (author_id p =? author) || (author_id p =? 393801572858986496)
  then (true, Some (String.eqb (custom_id p) "yes"))
  else (false, confirm).

(** Modelled from the spec: [wait_for_component] is not among the sources.
    It waits for a button interaction that [check] accepts and that belongs
    to the awaited message; when none arrives it raises [ending] -- the
    timeout elapsing, or the waiting task being cancelled. *)
Fixpoint wait_for_component (author : Z) (arrivals : list Arrival)
    (ending : Exc) (confirm : option bool) : Outcome Ctx * option bool :=
  match arrivals with
  | [] => (Raised ending, confirm)
  | x :: rest =>
      let '(ok, confirm') := check author (payload x) confirm in
      if ok && wanted x
      then (Returned (payload x), confirm')
      else wait_for_component author rest ending confirm'
  end.

Record PromptArgs : Type := {
  confirmation_message : string;
  p_author_id : option Z;
  p_color : Z;
  p_delete_after : bool;
  p_embed : option Embed;
  p_hidden : bool;
  return_message : bool;
  timeout : float
}.

Inductive PromptResult : Type :=
| Confirm (confirm : option bool)
| ConfirmAndMessage (confirm : option bool) (message : MessageRef).

(** Where the [try] block of [prompt] leaves the method: at its own
    [return], or on the way to the final cleanup with [button_context]
    ([None] stands for [self]) and [expired]. *)
Inductive AfterWait : Type :=
| Return (r : PromptResult)
| Continue (button_context : option Ctx) (expired : bool).

(** [author_id or self.author.id] *)
Definition prompt_author (p : PromptArgs) (c : Ctx) : Z :=
  match p_author_id p with
  | Some z => if z =? 0 then author_id c else z
  | None => author_id c
  end.

(** The embed [prompt] sends: the one passed in, or a new one titled
    "Confirmation Needed", with color, description and footer assigned. *)
Definition prompt_embed (p : PromptArgs) : Embed :=
  let embed0 :=
    match p_embed p with
    | Some e =>
        if embed_truthy e then e
        else {| title := Some "Confirmation Needed"; description := None;
                color := None; footer := None |}
    | None => {| title := Some "Confirmation Needed"; description := None;
                 color := None; footer := None |}
    end in
  {| title := title embed0;
     description := Some (confirmation_message p);
     color := Some (p_color p);
     footer := Some strftime_now |}.

(** The row of the two buttons, [ButtonStyle.green] "yes" and
    [ButtonStyle.danger] "no". *)
Definition prompt_buttons : list Dict :=
  [ create_actionrow [ create_button 3 "✔" "yes"; create_button 4 "✖" "no" ] ].

(** The body of the [try] block, from the point where the wait has
    returned a button context or raised. *)
Definition prompt_attempt (p : PromptArgs) (arrived : Outcome Ctx)
  : M State AfterWait :=
  button_context <- lift arrived ;;
  r <- on button_context (self_defer (p_hidden p) None None) ;;
  ret (Continue (Some (snd r)) false).

(** [InteractionContext.prompt]; [arrivals] and [ending] are what happens
    while it waits ([timeout] is handed to the wait, whose running out is
    the [ending] here). *)
Definition prompt (p : PromptArgs) (arrivals : list Arrival) (ending : Exc)
  : M State PromptResult :=
  c <- get ;;
  let author := prompt_author p c in
  let embed := prompt_embed p in
  let buttons := prompt_buttons in
  _message <- self_send (plain_send embed (p_hidden p) None (Some buttons)) ;;
  message <- lift (message_ref _message) ;;
  let '(arrived, confirm) := wait_for_component author arrivals ending None in
  next <- try_except
            (prompt_attempt p arrived)
            (fun e =>
               match e with
               | CancelledError =>
                   _cleanup message buttons confirm (p_delete_after p) false
                     (p_hidden p) ;;
                   ret (Return (Confirm confirm))
               | TimeoutError =>
                   _ <- self_send
                          (plain_send
                             (generate_result_embed "Took too long" error false)
                             true None None) ;;
                   ret (Continue None true)
               | _ =>
                   emit LogException ;;
                   _ <- self_send
                          (plain_send
                             (generate_result_embed
                                "An error occurred, please try again."
                                error true)
                             true None None) ;;
                   ret (Continue None false)
               end) ;;
  match next with
  | Return r => ret r
  | Continue button_context expired =>
      let result :=
        if return_message p && negb (p_hidden p)
        then ConfirmAndMessage confirm message
        else Confirm confirm in
      let cleanup :=
        _cleanup message buttons confirm (p_delete_after p) expired
          (p_hidden p) in
      match button_context with
      | Some b => finally_return (on b cleanup) result
      | None => finally_return cleanup result
      end
  end.

(** *** Vocabulary of the statements *)

(** [after m s Q]: whatever [m] returns or raises from state [s], [Q] holds
    of the outcome and of the state it leaves. *)
Definition after {A} (m : M State A) (s : State)
    (Q : Outcome A -> State -> Prop) : Prop :=
  forall o s', m s = (o, s') -> Q o s'.

(** Closing files only adds [Close] events. *)
Definition closed (fs : list File) (l : list Event) : list Event :=
  fold_left (fun acc f => Close f :: acc) fs l.

(** The state a context is created in, as far as the flags go. *)
Definition fresh (c : Ctx) : Prop := deferred c = false /\ responded c = false.

(** The two flags are not both set. *)
Definition consistent (c : Ctx) : Prop :=
  deferred c && responded c = false.

(** Attachments as the state machine sees them after the checks. *)
Definition attachments (a : SendArgs) : bool :=
  obj_truthy (file a) || list_truthy (files a).

Definition field_attachments (f : Fields) : bool :=
  obj_truthy (f_file f) || list_truthy (f_files f).

(** The keyword combinations [defer] accepts, by class. *)
Definition defer_accepts (k : ContextClass) (h : bool) (e i : option bool)
  : bool :=
  match k with
  | InteractionContext | SlashContext =>
      match e, i with None, None => true | _, _ => false end
  | ComponentContext | MenuContext =>
      negb (keyword e && keyword i) && negb (h && keyword e)
  end.

(** The dispatcher answers every request. *)
Definition replies : Prop := forall l r, exists j, http l r = Returned j.

End Machine.

(** ** Further vocabulary and models *)

Section Further.
Context `{D : Discord}.

(** The files a log closed, newest first. *)
Fixpoint closes (l : list Event) : list File :=
  match l with
  | [] => []
  | Close f :: rest => f :: closes rest
  | _ :: rest => closes rest
  end.

(** The warnings of a log, newest first. *)
Fixpoint warnings (l : list Event) : list string :=
  match l with
  | [] => []
  | Warning w :: rest => w :: warnings rest
  | _ :: rest => warnings rest
  end.

(** What [send] asks of its arguments, said at once instead of check by
    check. *)
Definition send_accepts (a : SendArgs) : bool :=
  negb (embed_given (embed a) && embeds_truthy (embeds a))
  && (negb (embeds_truthy (embeds a))
      || (embeds_is_list (embeds a)
          && (length (embeds_items (embeds a)) <=? 10)%nat))
  && negb (obj_truthy (file a) && list_truthy (files a))
  && negb (float_truthy (delete_after a) && hidden a)
  && forallb is_action_row (items (components a)).

(** [embeds] and [files] as [send] reassigns them before it builds the
    payload. *)
Definition send_embeds (a : SendArgs) : Embeds :=
  match embed a with
  | Some e => if embed_truthy e then EmbedsList [e] else embeds a
  | None => embeds a
  end.

Definition send_files (a : SendArgs) : option (list File) :=
  match file a with
  | Some f => Some [f]
  | None => files a
  end.

(** What [edit_origin] asks of its keyword arguments. *)
Definition edit_origin_accepts (f : Fields) : bool :=
  match f_embeds f with
  | Some e =>
      embeds_is_list e && (length (embeds_items e) <=? 10)%nat
      && negb (obj_truthy (f_embed f))
  | None => true
  end
  && negb (obj_truthy (f_files f) && obj_truthy (f_file f)).

(** *** [generate_result_embed] and the dictionaries of [EmbedType]

    The function takes [result_type.value] and assigns into it: the
    dictionary of the enumeration member is shared by all calls, so what a
    call stores there is what the next call starts from. *)

(** The value of an [EmbedType] member: [color] and [title] as declared,
    [description] once a call has stored one. *)
Record EmbedKwargs : Type := {
  kw_color : Z;
  kw_title : string;
  kw_description : option string
}.

Definition EmbedValues : Type := EmbedType -> EmbedKwargs.

(** The dictionaries as the class body declares them. *)
Definition declared : EmbedValues :=
  fun t =>
    let '(c, ti) := EmbedType_value t in
    {| kw_color := c; kw_title := ti; kw_description := None |}.

Definition EmbedType_eqb (t u : EmbedType) : bool :=
  match t, u with
  | success, success | error, error | warning, warning => true
  | _, _ => false
  end.

Definition contact_line : string :=
  newline ++ newline ++ "If you need more help, contact <@393801572858986496>.".

(** [generate_result_embed(message, result_type, title, contact_me)] on the
    shared dictionaries: the embed it returns and the dictionaries it
    leaves. *)
Definition generate_result_embed_on (values : EmbedValues) (message : string)
    (result_type : EmbedType) (title' : option string) (contact_me : bool)
  : Embed * EmbedValues :=
  let embed_kwargs := values result_type in
  let embed_kwargs :=
    match title' with
    | Some t =>
        if negb (String.eqb t "")
        then {| kw_color := kw_color embed_kwargs; kw_title := t;
                kw_description := kw_description embed_kwargs |}
        else embed_kwargs
    | None => embed_kwargs
    end in
  let embed_kwargs :=
    {| kw_color := kw_color embed_kwargs; kw_title := kw_title embed_kwargs;
       kw_description := Some message |} in
  let embed_kwargs :=
    if contact_me
    then {| kw_color := kw_color embed_kwargs;
            kw_title := kw_title embed_kwargs;
            kw_description := Some (message ++ contact_line) |}
    else embed_kwargs in
  ({| title := Some (kw_title embed_kwargs);
      description := kw_description embed_kwargs;
      color := Some (kw_color embed_kwargs);
      footer := Some strftime_now |},
   fun t => if EmbedType_eqb t result_type then embed_kwargs else values t).

End Further.

(** ** The data models of [interactions/api/models]

    The classes that declare [__slots__] or an [__init__]. An instance of a
    class with [__slots__] has no [__dict__], only its slots; an [__init__]
    here is always [self.__dict__.update(kwargs)], and a class without one
    is built by [object], which takes no arguments. Attribute names are the
    field names; methods and the attributes every object has are outside
    the model. *)
Record ClassDecl : Type := {
  class_name : string;
  class_slots : option (list string);
  updates_dict : bool
}.

(** [user.py] *)
Definition User : ClassDecl :=
  {| class_name := "User";
     class_slots :=
       Some [ "id"; "username"; "discriminator"; "avatar"; "bot"; "system";
              "mfa_enabled"; "banner"; "accent_color"; "locale"; "verified";
              "email"; "flags"; "premium_type"; "public_flags" ];
     updates_dict := true |}.

(** [message.py] *)
Definition MessageActivity : ClassDecl :=
  {| class_name := "MessageActivity";
     class_slots := Some ["type"; "party_id"];
     updates_dict := false |}.

Definition MessageReference : ClassDecl :=
  {| class_name := "MessageReference";
     class_slots :=
       Some ["message_id"; "channel_id"; "guild_id"; "fail_if_not_exists"];
     updates_dict := false |}.

Definition Attachment : ClassDecl :=
  {| class_name := "Attachment";
     class_slots :=
       Some [ "id"; "filename"; "content_type"; "size"; "url"; "proxy_url";
              "height"; "width" ];
     updates_dict := false |}.

Definition Message : ClassDecl :=
  {| class_name := "Message"; class_slots := None; updates_dict := true |}.

Definition Emoji : ClassDecl :=
  {| class_name := "Emoji"; class_slots := None; updates_dict := true |}.

Record PyObject : Type := {
  class_of : ClassDecl;
  instance_dict : option Dict;
  slot_values : Dict
}.

(** [object.__new__(cls)] *)
Definition allocate (c : ClassDecl) : PyObject :=
  {| class_of := c;
     instance_dict :=
       match class_slots c with Some _ => None | None => Some [] end;
     slot_values := [] |}.

(** [d.update(kwargs)] *)
Definition dict_update (d kwargs : Dict) : Dict :=
  fold_left (fun acc kv => dict_set (fst kv) (snd kv) acc) kwargs d.

(** A call of the class with keyword arguments [kwargs]. *)
Definition construct (c : ClassDecl) (kwargs : Dict) : Outcome PyObject :=
  let obj := allocate c in
  if updates_dict c
  then match instance_dict obj with
       | Some d =>
           Returned {| class_of := c;
                       instance_dict := Some (dict_update d kwargs);
                       slot_values := slot_values obj |}
       | None =>
           Raised (AttributeError "object has no attribute '__dict__'")
       end
  else match kwargs with
       | [] => Returned obj
       | _ :: _ => Raised (TypeError "takes no arguments")
       end.

Definition is_slot (c : ClassDecl) (name : string) : bool :=
  existsb (String.eqb name) (items (class_slots c)).

(** [obj.name] *)
Definition getattr (obj : PyObject) (name : string) : Outcome Json :=
  match instance_dict obj with
  | Some d =>
      match dict_get name d with
      | Some v => Returned v
      | None => Raised (AttributeError name)
      end
  | None =>
      if is_slot (class_of obj) name
      then match dict_get name (slot_values obj) with
           | Some v => Returned v
           | None => Raised (AttributeError name)
           end
      else Raised (AttributeError name)
  end.

(** [obj.name = v] *)
Definition setattr (obj : PyObject) (name : string) (v : Json)
  : Outcome PyObject :=
  match instance_dict obj with
  | Some d =>
      Returned {| class_of := class_of obj;
                  instance_dict := Some (dict_set name v d);
                  slot_values := slot_values obj |}
  | None =>
      if is_slot (class_of obj) name
      then Returned {| class_of := class_of obj;
                       instance_dict := None;
                       slot_values := dict_set name v (slot_values obj) |}
      else Raised (AttributeError name)
  end.

(** ** A concrete setting

    A dispatcher that answers every request, and a few contexts and
    arguments, for the closed examples at the end. *)
Module Sample.

Definition reply (r : Request) : Json :=
  match r with
  | post_initial_response _ _ _ => JStr ""
  | edit _ _ _ => JDict [("id", JInt 7)]
  | post_followup _ _ _ => JDict [("id", JInt 8)]
  | delete_message _ => JNone
  end.

Definition discord : Discord :=
  {| AllowedMentions := unit;
     merge := fun _ _ => tt;
     mentions_to_dict := fun _ => JDict [];
     embed_truthy := fun e =>
       match title e, description e with
       | None, None => false
       | _, _ => true
       end;
     embed_to_dict := fun e =>
       JDict match title e with
             | Some t => [("title", JStr t)]
             | None => []
             end;
     embeds_of_data := fun _ => [];
     strftime_now := "January 01, 2022 at 12:00:00 PM UTC";
     http := fun _ r => Returned (reply r) |}.

Definition context (k : ContextClass) (d r : bool) : @Ctx discord :=
  {| cls := k; _token := "token"; interaction_id := 1; channel_id := 2;
     author_id := 3; custom_id := "yes"; bot_allowed_mentions := None;
     message := None; deferred := d; responded := r;
     _deferred_hidden := false; _deferred_edit_origin := false |}.

Definition state (k : ContextClass) (d r : bool) : @State discord :=
  {| self := context k d r; log := [] |}.

Definition an_embed : Embed :=
  {| title := Some "Hello"; description := None; color := None;
     footer := None |}.

Definition a_file : File := {| filename := "a.txt" |}.

(** [send("hi")] *)
Definition hello : @SendArgs discord :=
  {| content := "hi"; embed := None; embeds := EmbedsNone; tts := false;
     file := None; files := None; allowed_mentions := None; hidden := false;
     delete_after := None; components := None |}.

(** [send("hi", hidden=True)] *)
Definition hello_hidden : @SendArgs discord :=
  {| content := "hi"; embed := None; embeds := EmbedsNone; tts := false;
     file := None; files := None; allowed_mentions := None; hidden := true;
     delete_after := None; components := None |}.

(** [send("hi", file=a_file)] *)
Definition hello_file : @SendArgs discord :=
  {| content := "hi"; embed := None; embeds := EmbedsNone; tts := false;
     file := Some a_file; files := None; allowed_mentions := None;
     hidden := false; delete_after := None; components := None |}.

(** [send(embed=an_embed, embeds=[an_embed])] *)
Definition both_embeds : @SendArgs discord :=
  {| content := ""; embed := Some an_embed; embeds := EmbedsList [an_embed];
     tts := false; file := None; files := None; allowed_mentions := None;
     hidden := false; delete_after := None; components := None |}.

(** [send("hi", hidden=True, delete_after=5.0)] *)
Definition hidden_delete : @SendArgs discord :=
  {| content := "hi"; embed := None; embeds := EmbedsNone; tts := false;
     file := None; files := None; allowed_mentions := None; hidden := true;
     delete_after := Some 5%float; components := None |}.

(** [edit_origin(content="done")] *)
Definition edit_content : @Fields discord :=
  {| f_content := Some (Some "done"); f_components := None;
     f_embeds := None; f_embed := None; f_file := None; f_files := None;
     f_allowed_mentions := None |}.

(** [edit_origin(content="done", file=a_file)] *)
Definition edit_file : @Fields discord :=
  {| f_content := Some (Some "done"); f_components := None;
     f_embeds := None; f_embed := None; f_file := Some a_file;
     f_files := None; f_allowed_mentions := None |}.

(** [edit_origin(embed=an_embed, embeds=[an_embed])] *)
Definition edit_both_embeds : @Fields discord :=
  {| f_content := None; f_components := None;
     f_embeds := Some (EmbedsList [an_embed]); f_embed := Some (Some an_embed);
     f_file := None; f_files := None; f_allowed_mentions := None |}.

(** [prompt("Sure?", hidden=False)] with the other defaults. *)
Definition ask : PromptArgs :=
  {| confirmation_message := "Sure?"; p_author_id := None;
     p_color := Color_orange; p_delete_after := true; p_embed := None;
     p_hidden := false; return_message := false; timeout := 120%float |}.

End Sample.

(** A button of the second list is the button of the first with
    ["disabled"] bound to [True] and every other key as it was. *)
Definition disabled_copy (b b' : Json) : Prop :=
  exists kv kv',
    b = JDict kv /\ b' = JDict kv' /\
    dict_get "disabled" kv' = Some (JBool true) /\
    forall k, k <> "disabled" -> dict_get k kv' = dict_get k kv.

(** ** Further concrete settings

    Dispatchers that fail, contexts that carry the mark of a hidden
    [defer], and a click on the prompt, for the closed examples of the
    further properties. *)
Module Scenario.

(** Every request raises. *)
Definition down : Discord :=
  {| AllowedMentions := unit;
     merge := fun _ _ => tt;
     mentions_to_dict := fun _ => JDict [];
     embed_truthy := fun _ => true;
     embed_to_dict := fun _ => JDict [];
     embeds_of_data := fun _ => [];
     strftime_now := "January 01, 2022 at 12:00:00 PM UTC";
     http := fun _ _ => Raised (HTTPException 503) |}.

(** Every request is answered, except the edit with an empty body by which
    [send] fetches the message it has sent. *)
Definition no_fetch : Discord :=
  {| AllowedMentions := unit;
     merge := fun _ _ => tt;
     mentions_to_dict := fun _ => JDict [];
     embed_truthy := fun _ => true;
     embed_to_dict := fun _ => JDict [];
     embeds_of_data := fun _ => [];
     strftime_now := "January 01, 2022 at 12:00:00 PM UTC";
     http := fun _ r =>
       match r with
       | edit [] _ _ => Raised (HTTPException 404)
       | _ => Returned (JStr "")
       end |}.

Definition state (D : Discord) (k : ContextClass) (d r marked : bool)
  : @State D :=
  {| self :=
       {| cls := k; _token := "token"; interaction_id := 1; channel_id := 2;
          author_id := 3; custom_id := "yes"; bot_allowed_mentions := None;
          message := None; deferred := d; responded := r;
          _deferred_hidden := marked; _deferred_edit_origin := false |};
     log := [] |}.

(** [send("hi", hidden=h)] *)
Definition hello (D : Discord) (h : bool) : @SendArgs D :=
  {| content := "hi"; embed := None; embeds := EmbedsNone; tts := false;
     file := None; files := None; allowed_mentions := None; hidden := h;
     delete_after := None; components := None |}.

(** The author of the command presses the green button of the awaited
    message. *)
Definition click : @Arrival Sample.discord :=
  {| payload := Sample.context ComponentContext false false; wanted := true |}.

(** [prompt("Sure?", hidden=False, delete_after=False)] *)
Definition ask_keep : PromptArgs :=
  {| confirmation_message := "Sure?"; p_author_id := None;
     p_color := Color_orange; p_delete_after := false; p_embed := None;
     p_hidden := false; return_message := false; timeout := 120%float |}.

(** [Message(id=1, content="hi")] *)
Definition message_keywords : Dict := [("id", JInt 1); ("content", JStr "hi")].

End Scenario.

(** ** Reasoning about method runs *)

Section Logic.
Context `{D : Discord}.

Lemma after_lift {A} (x : Outcome A) s Q : Q x s -> after (lift x) s Q.
Proof. intros H o s' E. inversion E; subst. exact H. Qed.

Lemma after_ret {A} (a : A) s Q : Q (Returned a) s -> after (ret a) s Q.
Proof. apply after_lift. Qed.

Lemma after_raise {A} e s (Q : Outcome A -> State -> Prop) :
  Q (Raised e) s -> after (raise e) s Q.
Proof. apply after_lift. Qed.

Lemma after_get s Q : Q (Returned (self s)) s -> after get s Q.
Proof. intros H o s' E. inversion E; subst. exact H. Qed.

Lemma after_assign f s Q :
  Q (Returned tt) {| self := f (self s); log := log s |} ->
  after (assign f) s Q.
Proof. intros H o s' E. inversion E; subst. exact H. Qed.

Lemma after_emit e s Q :
  Q (Returned tt) {| self := self s; log := e :: log s |} ->
  after (emit e) s Q.
Proof. intros H o s' E. inversion E; subst. exact H. Qed.

Lemma after_await r s Q :
  Q (http (log s) r) {| self := self s; log := Http r :: log s |} ->
  after (await r) s Q.
Proof. intros H o s' E. inversion E; subst. exact H. Qed.

Lemma after_bind {A B} (m : M State A) (k : A -> M State B) s Q :
  after m s (fun o s1 =>
               match o with
               | Returned a => after (k a) s1 Q
               | Raised e => Q (Raised e) s1
               end) ->
  after (bind m k) s Q.
Proof.
  intros H o s' E. unfold bind in E.
  destruct (m s) as [[a|e] s1] eqn:Em; specialize (H _ _ Em); cbn in H.
  - exact (H _ _ E).
  - inversion E; subst. exact H.
Qed.

Lemma after_when (b : bool) m s Q :
  (if b then after m s Q else Q (Returned tt) s) -> after (when b m) s Q.
Proof. destruct b; cbn; [trivial | apply after_ret]. Qed.

Lemma close_all_eq :
  forall fs s,
    close_all fs s
    = (Returned tt, {| self := self s; log := closed fs (log s) |}).
Proof.
  induction fs as [|f fs IH]; intros [c l]; cbn; [reflexivity|].
  unfold bind, emit. cbn. rewrite IH. reflexivity.
Qed.

Lemma requests_closed : forall fs l, requests (closed fs l) = requests l.
Proof.
  induction fs as [|f fs IH]; intros l; cbn; [reflexivity|].
  unfold closed in IH. rewrite IH. reflexivity.
Qed.

Lemma tasks_closed : forall fs l, tasks (closed fs l) = tasks l.
Proof.
  induction fs as [|f fs IH]; intros l; cbn; [reflexivity|].
  unfold closed in IH. rewrite IH. reflexivity.
Qed.

Lemma after_close_all fs s Q :
  Q (Returned tt) {| self := self s; log := closed fs (log s) |} ->
  after (close_all fs) s Q.
Proof. intros H o s' E. rewrite close_all_eq in E. inversion E; subst. exact H. Qed.

Lemma after_try_except {A} (body : M State A) handler s Q :
  after body s (fun o s1 =>
                  match o with
                  | Returned a => Q (Returned a) s1
                  | Raised e => after (handler e) s1 Q
                  end) ->
  after (try_except body handler) s Q.
Proof.
  intros H o s' E. unfold try_except in E.
  destruct (body s) as [[a|e] s1] eqn:Em; specialize (H _ _ Em); cbn in H.
  - inversion E; subst. exact H.
  - exact (H _ _ E).
Qed.

Lemma after_finally_return {A B} (body : M State B) (a : A) s Q :
  after body s (fun _ s1 => Q (Returned a) s1) ->
  after (finally_return body a) s Q.
Proof.
  intros H o s' E. unfold finally_return in E. inversion E; subst.
  destruct (body s) as [o1 s1] eqn:Em. exact (H _ _ Em).
Qed.

Lemma after_on {A} (c : Ctx) (m : M State A) s Q :
  after m {| self := c; log := log s |}
    (fun o s1 =>
       Q match o with
         | Returned a => Returned (a, self s1)
         | Raised e => Raised e
         end {| self := self s; log := log s1 |}) ->
  after (on c m) s Q.
Proof.
  intros H o s' E. unfold on in E.
  destruct (m _) as [[a|e] s1] eqn:Em; specialize (H _ _ Em); cbn in H;
    inversion E; subst; exact H.
Qed.

(** A postcondition may be weakened. *)
Lemma after_weaken {A} (m : M State A) s (Q Q' : Outcome A -> State -> Prop) :
  after m s Q -> (forall o s', Q o s' -> Q' o s') -> after m s Q'.
Proof. intros H HQ o s' E. apply HQ, (H _ _ E). Qed.

End Logic.

#[local] Arguments send_base : simpl never.
#[local] Arguments send_checks : simpl never.
#[local] Arguments edit_origin_fields : simpl never.
#[local] Arguments make_message : simpl never.

(** Symbolic execution: one rule per construct, the method bodies unfolded
    as the run reaches them, and each test decided when the run needs it. *)
Ltac tidy :=
  cbv beta iota zeta delta
      [self log cls _token interaction_id channel_id author_id custom_id
       bot_allowed_mentions message deferred responded _deferred_hidden
       _deferred_edit_origin with_deferred with_responded
       with_deferred_hidden with_deferred_edit_origin with_message
       keyword negb andb orb fst snd].

Ltac head_of m :=
  lazymatch m with
  | ?f _ _ _ _ _ _ => f
  | ?f _ _ _ _ _ => f
  | ?f _ _ _ _ => f
  | ?f _ _ _ => f
  | ?f _ _ => f
  | ?f _ => f
  | ?f => f
  end.

Ltac waiting_on t :=
  lazymatch t with
  | match ?x with _ => _ end => waiting_on x
  | _ => t
  end.

Ltac decide_on x :=
  let y := waiting_on x in
  first [ is_var y; destruct y
        | match goal with H : y = _ |- _ => rewrite H end
        | destruct y eqn:? ].

Ltac run1 :=
  lazymatch goal with
  | |- after (bind _ _) _ _ => apply after_bind
  | |- after (ret _) _ _ => apply after_ret
  | |- after (raise _) _ _ => apply after_raise
  | |- after (lift _) _ _ => apply after_lift
  | |- after get _ _ => apply after_get
  | |- after (assign _) _ _ => apply after_assign
  | |- after (emit _) _ _ => apply after_emit
  | |- after (await _) _ _ => apply after_await
  | |- after (when _ _) _ _ => apply after_when
  | |- after (close_all _) _ _ => apply after_close_all
  | |- after (try_except _ _) _ _ => apply after_try_except
  | |- after (finally_return _ _) _ _ => apply after_finally_return
  | |- after (on _ _) _ _ => apply after_on
  | |- after (match ?x with _ => _ end) _ _ => decide_on x
  | |- after ?m _ _ => let h := head_of m in unfold h
  | |- match ?x with _ => _ end => decide_on x
  end; tidy.

Ltac run := tidy; repeat run1.

(** Split the context of every state in scope and decide its two flags. *)
Ltac open_state :=
  repeat match goal with
         | s : State |- _ =>
             let k := fresh "k" in
             let d := fresh "d" in
             let r := fresh "r" in
             destruct s as [[k ? ? ? ? ? ? ? d r ? ?] ?];
             destruct k, d, r
         end;
  cbn [self log cls deferred responded andb orb negb] in *; try congruence.

Ltac bools :=
  repeat match goal with
         | H : context [orb ?b _] |- _ => is_var b; destruct b; cbn in *
         | H : context [orb _ ?b] |- _ => is_var b; destruct b; cbn in *
         | H : context [andb ?b _] |- _ => is_var b; destruct b; cbn in *
         | H : context [andb _ ?b] |- _ => is_var b; destruct b; cbn in *
         | H : context [negb ?b] |- _ => is_var b; destruct b; cbn in *
         | H : context [Bool.eqb ?b _] |- _ => is_var b; destruct b; cbn in *
         end.

Ltac settle :=
  cbn [requests tasks] in *;
  rewrite ?requests_closed, ?tasks_closed; cbn [requests tasks];
  bools; try congruence.

(** ** Properties of the state machine *)

Section Properties.
Context `{D : Discord}.

Lemma after_run {A} (m : M State A) s Q :
  after m s Q -> Q (fst (m s)) (snd (m s)).
Proof. intros H. apply H. destruct (m s); reflexivity. Qed.

Lemma after_equal {A} (m : M State A) s r :
  after m s (fun o s' => (o, s') = r) -> m s = r.
Proof. intros H. destruct (m s) as [o s'] eqn:E. exact (H _ _ E). Qed.

(** *** The argument checks *)

Lemma send_checks_files :
  forall a e f, send_checks a = Returned (e, f) -> list_truthy f = attachments a.
Proof.
  intros a e f. unfold send_checks, attachments.
  repeat match goal with
         | |- context [if ?b && ?b' then _ else _] => destruct (b && b') eqn:?
         end; try discriminate.
  intros E. inversion E; subst. destruct (file a); cbn in *; [|reflexivity].
  destruct (list_truthy (files a)); [discriminate | reflexivity].
Qed.

Lemma send_checks_raises :
  forall a x, send_checks a = Raised x -> exists msg, x = IncorrectFormat msg.
Proof.
  intros a x. unfold send_checks.
  repeat match goal with
         | |- context [if ?b && ?b' then _ else _] => destruct (b && b') eqn:?
         end; intros E; inversion E; eexists; reflexivity.
Qed.

Lemma send_checks_embeds :
  forall a,
    embed_given (embed a) = true -> embeds_truthy (embeds a) = true ->
    send_checks a
    = Raised (IncorrectFormat "You can't use both `embed` and `embeds`!").
Proof. intros a He Hes. unfold send_checks. rewrite He, Hes. reflexivity. Qed.

Lemma send_checks_hidden_delete :
  forall a,
    float_truthy (delete_after a) = true -> hidden a = true ->
    exists msg, send_checks a = Raised (IncorrectFormat msg).
Proof.
  intros a Hd Hh. unfold send_checks. rewrite Hd, Hh. cbn [andb].
  repeat match goal with
         | |- context [if ?b && ?b' then _ else _] => destruct (b && b')
         end; eexists; reflexivity.
Qed.

Lemma edit_origin_fields_raises :
  forall c f x,
    edit_origin_fields c f = Raised x -> exists msg, x = IncorrectFormat msg.
Proof.
  intros c f x. unfold edit_origin_fields, and_then.
  destruct (f_embeds f) as [e|], (f_embed f) as [e'|];
    repeat match goal with
           | |- context [if ?b then _ else _] => destruct b
           end; intros E; inversion E; eexists; reflexivity.
Qed.

Lemma edit_origin_fields_files :
  forall c f r fs,
    edit_origin_fields c f = Returned (r, fs) ->
    list_truthy fs = field_attachments f.
Proof.
  intros c f r fs. unfold edit_origin_fields, and_then, field_attachments.
  destruct (f_embeds f) as [e|], (f_embed f) as [e'|];
    repeat match goal with
           | |- context [if ?b then _ else _] => destruct b eqn:?
           end; intros E; inversion E; subst;
    destruct (f_file f), (f_files f); cbn in *; congruence.
Qed.

(** *** [defer] *)

Lemma defer_flagged :
  forall s,
    deferred (self s) = true \/ responded (self s) = true ->
    (forall h, InteractionContext_defer h s
               = (Raised (AlreadyResponded already_responded_msg), s)) /\
    (forall h e i, ComponentContext_defer h e i s
               = (Raised (AlreadyResponded already_responded_msg), s)) /\
    (forall h e i, MenuContext_defer h e i s
               = (Raised (AlreadyResponded already_responded_msg), s)).
Proof.
  intros s Hflag.
  repeat split; intros; apply after_equal; unfold MenuContext_defer;
    open_state; try (destruct Hflag; discriminate); run; reflexivity.
Qed.

Lemma defer_returned :
  forall s,
    (forall h s',
       InteractionContext_defer h s = (Returned tt, s') ->
       fresh (self s) /\ deferred (self s') = true) /\
    (forall h e i s',
       ComponentContext_defer h e i s = (Returned tt, s') ->
       fresh (self s) /\
       (deferred (self s') = true \/ responded (self s') = true)).
Proof.
  intros s. split.
  - intros h s'.
    enough (after (InteractionContext_defer h) s
              (fun o s' => o = Returned tt ->
                           fresh (self s) /\ deferred (self s') = true))
      as H by (intros E; exact (H _ _ E eq_refl)).
    clear s'. unfold fresh. open_state; run; intros; try discriminate; auto.
  - intros h e i s'.
    enough (after (ComponentContext_defer h e i) s
              (fun o s' => o = Returned tt ->
                           fresh (self s) /\
                           (deferred (self s') = true
                            \/ responded (self s') = true)))
      as H by (intros E; exact (H _ _ E eq_refl)).
    clear s'. unfold fresh. open_state; run; intros; try discriminate; auto.
Qed.

(** C2 -- [defer] is legal only while both flags are false: with either flag
    set, every [defer] method raises "already responded" and leaves the
    context and the log (hence the network) untouched; a [defer] that
    returns started from both flags false, and a [defer] right after it
    raises "already responded". *)
Theorem defer_only_legal_when_fresh :
  forall (s : State),
    (deferred (self s) = true \/ responded (self s) = true ->
       (forall h, InteractionContext_defer h s
                  = (Raised (AlreadyResponded already_responded_msg), s)) /\
       (forall h e i, ComponentContext_defer h e i s
                  = (Raised (AlreadyResponded already_responded_msg), s)) /\
       (forall h e i, MenuContext_defer h e i s
                  = (Raised (AlreadyResponded already_responded_msg), s))) /\
    (forall h s',
       InteractionContext_defer h s = (Returned tt, s') ->
       fresh (self s) /\
       forall h', InteractionContext_defer h' s'
                  = (Raised (AlreadyResponded already_responded_msg), s')) /\
    (forall h e i s',
       ComponentContext_defer h e i s = (Returned tt, s') ->
       fresh (self s) /\
       forall h' e' i', ComponentContext_defer h' e' i' s'
                  = (Raised (AlreadyResponded already_responded_msg), s')).
Proof.
  intros s. split; [exact (defer_flagged s)|]. split.
  - intros h s' E. destruct (proj1 (defer_returned s) h s' E) as [Hf Hd].
    split; [exact Hf|]. intros h'.
    exact (proj1 (defer_flagged s' (or_introl Hd)) h').
  - intros h e i s' E.
    destruct (proj2 (defer_returned s) h e i s' E) as [Hf Hflag].
    split; [exact Hf|]. intros h' e' i'.
    exact (proj1 (proj2 (defer_flagged s' Hflag)) h' e' i').
Qed.

(** C4 (as amended) -- from both flags false, a [defer] that returns leaves
    the context deferred and not responded, except the [ignore] variant,
    which leaves it responded and not deferred. *)
Theorem defer_transition :
  forall (h : bool) (e i : option bool) (s s' : State),
    fresh (self s) ->
    self_defer h e i s = (Returned tt, s') ->
    deferred (self s') = negb (keyword i) /\
    responded (self s') = keyword i.
Proof.
  intros h e i s s' [Hd Hr].
  enough (after (self_defer h e i) s
            (fun o s' => o = Returned tt ->
                         deferred (self s') = negb (keyword i) /\
                         responded (self s') = keyword i))
    as H by (intros E; exact (H _ _ E eq_refl)).
  clear s'. open_state; run; intros; try discriminate; auto.
Qed.

(** *** [send] *)

Lemma send_rejected :
  forall a s x,
    send_checks a = Raised x ->
    after (self_send a) s
      (fun o s' => o = Raised x /\ self s' = self s /\
                   requests (log s') = requests (log s)).
Proof.
  intros a s x Hx. open_state; run; settle; auto.
Qed.

(** C5 -- [send] with both [embed] and [embeds] given raises "incorrect
    format" before any request is made: whatever the class of the context,
    the context is left as it was (both flags included) and the log gains no
    request. "Given" is Python's truth value, as in [if embed and embeds]. *)
Theorem send_embed_and_embeds_rejected :
  forall (s : State) (a : SendArgs),
    embed_given (embed a) = true ->
    embeds_truthy (embeds a) = true ->
    fst (self_send a s)
      = Raised (IncorrectFormat "You can't use both `embed` and `embeds`!") /\
    self (snd (self_send a s)) = self s /\
    requests (log (snd (self_send a s))) = requests (log s).
Proof.
  intros s a He Hes.
  exact (after_run _ _ _ (send_rejected a s _ (send_checks_embeds a He Hes))).
Qed.

(** C6 -- [send] with both [delete_after] and [hidden] given raises
    "incorrect format" before any request is made; the context is left as
    it was. *)
Theorem send_delete_after_hidden_rejected :
  forall (s : State) (a : SendArgs),
    float_truthy (delete_after a) = true ->
    hidden a = true ->
    (exists msg, fst (self_send a s) = Raised (IncorrectFormat msg)) /\
    self (snd (self_send a s)) = self s /\
    requests (log (snd (self_send a s))) = requests (log s).
Proof.
  intros s a Hd Hh.
  destruct (send_checks_hidden_delete a Hd Hh) as [msg Hmsg].
  destruct (after_run _ _ _ (send_rejected a s _ Hmsg)) as (Ho & Hs & Hl).
  split; [exists msg; exact Ho | split; assumption].
Qed.

(** C1 (as amended) -- once [responded] is true, a call of [send] whose
    arguments pass the checks makes exactly one request, a
    [post_followup]; a call whose arguments fail them raises "incorrect
    format" and makes no request. Either way no initial response is
    posted. *)
Theorem send_after_responded_is_followup :
  forall (a : SendArgs) (s : State) o s',
    responded (self s) = true ->
    self_send a s = (o, s') ->
    match send_checks a with
    | Returned (embeds', files') =>
        requests (log s')
          = post_followup (send_base (self s) a embeds') (_token (self s)) files'
            :: requests (log s)
    | Raised x =>
        o = Raised x /\ (exists msg, x = IncorrectFormat msg) /\
        requests (log s') = requests (log s)
    end.
Proof.
  intros a s o s' Hr. revert o s'.
  change (after (self_send a) s
            (fun o s' =>
               match send_checks a with
               | Returned (embeds', files') =>
                   requests (log s')
                   = post_followup (send_base (self s) a embeds')
                       (_token (self s)) files' :: requests (log s)
               | Raised x =>
                   o = Raised x /\ (exists msg, x = IncorrectFormat msg) /\
                   requests (log s') = requests (log s)
               end)).
  open_state; run; settle; auto;
    (split; [reflexivity|]); (split; [|reflexivity]);
    eapply send_checks_raises; eassumption.
Qed.

Lemma send_consistent :
  forall a s,
    consistent (self s) ->
    after (self_send a) s (fun _ s' => consistent (self s')).
Proof.
  unfold consistent. intros a s Hc. open_state; run; settle.
Qed.

Lemma defer_consistent :
  forall h e i s,
    consistent (self s) ->
    after (self_defer h e i) s (fun _ s' => consistent (self s')).
Proof.
  unfold consistent. intros h e i s Hc. open_state; run; settle.
Qed.

Lemma edit_origin_consistent :
  forall f s,
    consistent (self s) ->
    after (self_edit_origin f) s (fun _ s' => consistent (self s')).
Proof.
  unfold consistent. intros f s Hc. open_state; run; settle.
Qed.

Lemma perform_consistent :
  forall op s, consistent (self s) -> consistent (self (snd (perform op s))).
Proof.
  intros op s Hc. destruct op as [h e i|a|f]; cbn [perform].
  - exact (after_run _ _ _ (defer_consistent h e i s Hc)).
  - apply (after_run (_ <- self_send a ;; ret tt) s
             (fun _ s' => consistent (self s'))).
    apply after_bind.
    eapply after_weaken; [exact (send_consistent a s Hc)|].
    intros [r|x] s1 H1; [apply after_ret|]; exact H1.
  - exact (after_run _ _ _ (edit_origin_consistent f s Hc)).
Qed.

Lemma run_calls_consistent :
  forall ops s, consistent (self s) -> consistent (self (run_calls ops s)).
Proof.
  induction ops as [|op ops IH]; intros s Hc; cbn [run_calls].
  - exact Hc.
  - apply IH, perform_consistent, Hc.
Qed.

(** C9 -- starting from a context with both flags false, after any sequence
    of [defer], [send] and [edit_origin] calls (whatever each one returned
    or raised) the flags are not both true; and a call that takes
    [responded] from false to true leaves [deferred] false. Every prefix of
    a sequence is a sequence, so this covers the states in between. *)
Theorem flags_never_both_true :
  forall (ops : list Call) (s : State),
    fresh (self s) ->
    consistent (self (run_calls ops s)) /\
    forall op,
      responded (self (run_calls ops s)) = false ->
      responded (self (snd (perform op (run_calls ops s)))) = true ->
      deferred (self (snd (perform op (run_calls ops s)))) = false.
Proof.
  intros ops s [Hd Hr].
  assert (H0 : consistent (self s)) by (unfold consistent; now rewrite Hd, Hr).
  pose proof (run_calls_consistent ops s H0) as Hc. split; [exact Hc|].
  intros op _ Hset. pose proof (perform_consistent op _ Hc) as Hc'.
  unfold consistent in Hc'. rewrite Hset, andb_true_r in Hc'. exact Hc'.
Qed.

(** *** [edit_origin] *)

(** C7 (as amended) -- on a component context whose [responded] flag is
    true, every call of [edit_origin] raises "incorrect format" and changes
    nothing, so no request is made; the message is "Already responded"
    whenever the arguments themselves pass the checks, and the message of
    the failed check otherwise. *)
Theorem edit_origin_after_responded_rejected :
  forall (f : Fields) (s : State) o s',
    cls (self s) = ComponentContext ->
    responded (self s) = true ->
    self_edit_origin f s = (o, s') ->
    s' = s /\
    match edit_origin_fields (self s) f with
    | Returned _ => o = Raised (IncorrectFormat "Already responded")
    | Raised x => o = Raised x /\ exists msg, x = IncorrectFormat msg
    end.
Proof.
  intros f s o s' Hk Hr. revert o s'.
  change (after (self_edit_origin f) s
            (fun o s' =>
               s' = s /\
               match edit_origin_fields (self s) f with
               | Returned _ => o = Raised (IncorrectFormat "Already responded")
               | Raised x => o = Raised x /\ exists msg, x = IncorrectFormat msg
               end)).
  open_state; run; split; auto;
    (split; [reflexivity|]); eapply edit_origin_fields_raises; eassumption.
Qed.

(** *** Requests per call *)

Ltac count :=
  intros; try discriminate; unfold count_requests;
  cbn [requests]; rewrite ?requests_closed; cbn [requests length]; try lia.

Lemma defer_requests :
  forall h e i s,
    after (self_defer h e i) s
      (fun o s' => o = Returned tt ->
         count_requests (log s') = (count_requests (log s) + 1)%nat).
Proof. intros h e i s. open_state; run; count. Qed.

Lemma send_requests :
  forall a s,
    after (self_send a) s
      (fun o s' => forall r, o = Returned r ->
         count_requests (log s') =
         (count_requests (log s) +
          (if responded (self s) then 1
           else if deferred (self s) then 1
           else if attachments a then 2
           else if hidden a then 1 else 2))%nat).
Proof.
  intros a s. destruct (send_checks a) as [[e f]|x] eqn:Hsc.
  - rewrite <- (send_checks_files _ _ _ Hsc). open_state; run; count.
  - open_state; run; count.
Qed.

Lemma edit_origin_requests :
  forall f s,
    after (self_edit_origin f) s
      (fun o s' => o = Returned tt ->
         count_requests (log s') =
         (count_requests (log s) +
          (if deferred (self s) then 1
           else if field_attachments f then 2 else 1))%nat).
Proof.
  intros f s. destruct s as [c l].
  destruct (edit_origin_fields c f) as [[r fs]|x] eqn:Hc.
  - rewrite <- (edit_origin_fields_files _ _ _ _ Hc).
    destruct c as [k ? ? ? ? ? ? ? d r0 ? ?]; destruct k, d, r0;
      run; count.
  - destruct c as [k ? ? ? ? ? ? ? d r0 ? ?]; destruct k, d, r0;
      run; count.
Qed.

Ltac answered Hrep :=
  intros;
  try match goal with
      | H : http ?l ?r = Raised _ |- _ =>
          destruct (Hrep l r) as [? ?]; congruence
      end;
  try discriminate; try (eexists; reflexivity).

Lemma defer_returns :
  replies ->
  forall h e i s,
    fresh (self s) -> defer_accepts (cls (self s)) h e i = true ->
    after (self_defer h e i) s (fun o _ => o = Returned tt).
Proof.
  intros Hrep h e i s [Hd Hr] Hok. unfold defer_accepts in Hok.
  open_state; destruct h; run; cbn in Hok; answered Hrep.
Qed.

Lemma send_returns :
  replies ->
  forall a s v,
    send_checks a = Returned v ->
    after (self_send a) s (fun o _ => exists r, o = Returned r).
Proof.
  intros Hrep a s [e f] Hv. open_state; run; answered Hrep.
Qed.

Lemma edit_origin_returns :
  replies ->
  forall f s v,
    cls (self s) = ComponentContext -> responded (self s) = false ->
    edit_origin_fields (self s) f = Returned v ->
    after (self_edit_origin f) s (fun o _ => o = Returned tt).
Proof.
  intros Hrep f s [r fs] Hk Hr Hv. open_state; run; answered Hrep.
Qed.

(** C3 (as amended) -- a call that returns has made exactly this many
    requests. [defer]: one. [send]: one on a responded context (the
    followup), one on a deferred context (the edit of the placeholder),
    and from both flags false two with attachments (defer, then edit), one
    when hidden (the initial response), two otherwise (the initial
    response, then an edit with an empty body that fetches the message).
    [edit_origin]: one, or two from both flags false with attachments.
    And when the dispatcher answers every request, a legal call whose
    arguments pass the checks does return. *)
Theorem requests_per_call :
  (forall h e i s s',
     self_defer h e i s = (Returned tt, s') ->
     count_requests (log s') = (count_requests (log s) + 1)%nat) /\
  (forall a s r s',
     self_send a s = (Returned r, s') ->
     count_requests (log s') =
     (count_requests (log s) +
      (if responded (self s) then 1
       else if deferred (self s) then 1
       else if attachments a then 2
       else if hidden a then 1 else 2))%nat) /\
  (forall f s s',
     self_edit_origin f s = (Returned tt, s') ->
     count_requests (log s') =
     (count_requests (log s) +
      (if deferred (self s) then 1
       else if field_attachments f then 2 else 1))%nat) /\
  (replies ->
   (forall h e i s,
      fresh (self s) -> defer_accepts (cls (self s)) h e i = true ->
      exists s', self_defer h e i s = (Returned tt, s')) /\
   (forall a s v,
      send_checks a = Returned v ->
      exists r s', self_send a s = (Returned r, s')) /\
   (forall f s v,
      cls (self s) = ComponentContext -> responded (self s) = false ->
      edit_origin_fields (self s) f = Returned v ->
      exists s', self_edit_origin f s = (Returned tt, s'))).
Proof.
  split; [|split; [|split]].
  - intros h e i s s' E. exact (defer_requests h e i s _ _ E eq_refl).
  - intros a s r s' E. exact (send_requests a s _ _ E r eq_refl).
  - intros f s s' E. exact (edit_origin_requests f s _ _ E eq_refl).
  - intros Hrep. split; [|split].
    + intros h e i s Hf Hok.
      destruct (self_defer h e i s) as [o s'] eqn:E.
      rewrite (defer_returns Hrep h e i s Hf Hok _ _ E). eauto.
    + intros a s v Hv.
      destruct (self_send a s) as [o s'] eqn:E.
      destruct (send_returns Hrep a s v Hv _ _ E) as [r ->]. eauto.
    + intros f s v Hk Hr Hv.
      destruct (self_edit_origin f s) as [o s'] eqn:E.
      rewrite (edit_origin_returns Hrep f s v Hk Hr Hv _ _ E). eauto.
Qed.

(** *** What [send] returns *)

Lemma send_hidden :
  forall a s,
    hidden a = true ->
    after (self_send a) s
      (fun o s' =>
         message (self s') = message (self s) /\
         tasks (log s') = tasks (log s) /\
         forall r, o = Returned r ->
           exists embeds' files' resp,
             send_checks a = Returned (embeds', files') /\
             r = RawResponse resp /\
             if responded (self s)
             then exists l,
                 http l (post_followup (send_base (self s) a embeds')
                           (_token (self s)) files') = Returned resp
             else if deferred (self s) || attachments a
             then exists l,
                 http l (edit (send_base (self s) a embeds')
                           (_token (self s)) files') = Returned resp
             else resp = JDict []).
Proof.
  intros a s Hh. destruct (send_checks a) as [[e f]|x] eqn:Hsc.
  - rewrite <- (send_checks_files _ _ _ Hsc).
    open_state; run; settle;
      (split; [reflexivity|]); (split; [reflexivity|]);
      intros ? E; inversion E; subst; clear E;
      exists e, f; eexists; (split; [reflexivity|]);
      (split; [reflexivity|]); cbn [orb];
      try reflexivity; eexists; eassumption.
  - open_state; run; settle; repeat split; intros; discriminate.
Qed.

Lemma send_visible :
  forall a s,
    hidden a = false ->
    after (self_send a) s
      (fun o s' =>
         forall r, o = Returned r ->
           exists m, r = SentMessage m /\
             message (self s')
             = if responded (self s) then message (self s) else Some m).
Proof.
  intros a s Hh.
  open_state; run; intros ? E; inversion E; subst; clear E;
    eexists; split; reflexivity.
Qed.

(** C10 (as amended) -- when [hidden] is true, [send] returns a dictionary
    and never a [SlashMessage], schedules no delayed delete and leaves
    [message] as it was; the dictionary is the dispatcher's reply to the
    followup or to the edit, and after a plain initial response the empty
    dictionary the code puts in the place of the reply. When [hidden] is
    false, [send] returns a [SlashMessage], and assigns it to [message]
    exactly when it was the initial response. *)
Theorem send_hidden_returns_dictionary :
  forall (a : SendArgs) (s : State) o s',
    self_send a s = (o, s') ->
    (hidden a = true ->
       message (self s') = message (self s) /\
       tasks (log s') = tasks (log s) /\
       forall r, o = Returned r ->
         exists embeds' files' resp,
           send_checks a = Returned (embeds', files') /\
           r = RawResponse resp /\
           if responded (self s)
           then exists l,
               http l (post_followup (send_base (self s) a embeds')
                         (_token (self s)) files') = Returned resp
           else if deferred (self s) || attachments a
           then exists l,
               http l (edit (send_base (self s) a embeds')
                         (_token (self s)) files') = Returned resp
           else resp = JDict []) /\
    (hidden a = false ->
       forall r, o = Returned r ->
         exists m, r = SentMessage m /\
           message (self s')
           = if responded (self s) then message (self s) else Some m).
Proof.
  intros a s o s' E. split; intros Hh.
  - exact (send_hidden a s Hh _ _ E).
  - exact (send_visible a s Hh _ _ E).
Qed.

(** *** The confirmation prompt *)

(** C8 (as amended) -- when the [try] block of [prompt] is cancelled, in the
    wait or in the [defer] that follows it, the handler runs [_cleanup] on
    the prompt's own context, with the arguments the final cleanup would
    get, and then returns [confirm]: whenever that cleanup completes,
    [prompt] returns normally and the cancellation is not passed on to the
    caller. *)
Theorem prompt_cancelled_returns_confirm :
  forall (p : PromptArgs) (arrivals : list Arrival) (ending : Exc)
         (s s1 s2 : State) _message message arrived confirm,
    self_send (plain_send (prompt_embed p) (p_hidden p) None
                 (Some prompt_buttons)) s = (Returned _message, s1) ->
    message_ref _message = Returned message ->
    wait_for_component (prompt_author p (self s)) arrivals ending None
      = (arrived, confirm) ->
    prompt_attempt p arrived s1 = (Raised CancelledError, s2) ->
    prompt p arrivals ending s
      = match _cleanup message prompt_buttons confirm (p_delete_after p)
                false (p_hidden p) s2 with
        | (Returned _, s3) => (Returned (Confirm confirm), s3)
        | (Raised e, s3) => (Raised e, s3)
        end.
Proof.
  intros p arrivals ending s s1 s2 _message message arrived confirm
         Hsend Hmsg Hwait Htry.
  unfold prompt.
  unfold bind at 1. unfold get at 1. cbv beta iota.
  unfold bind at 1. rewrite Hsend.
  unfold bind at 1. unfold lift at 1. rewrite Hmsg. rewrite Hwait.
  unfold bind at 1. unfold try_except. rewrite Htry.
  unfold bind at 1.
  destruct (_cleanup message prompt_buttons confirm (p_delete_after p) false
              (p_hidden p) s2) as [[[]|e] s3]; reflexivity.
Qed.

End Properties.

(** ** Further properties *)

Section FurtherProperties.
Context `{D : Discord}.

(** *** The states a call can leave *)

Lemma defer_keeps_responded :
  forall h e i s,
    responded (self s) = true ->
    after (self_defer h e i) s
      (fun _ s' => responded (self s') = true /\
                   message (self s') = message (self s)).
Proof. intros h e i s Hr. open_state; run; settle; auto. Qed.

Lemma send_keeps_responded :
  forall a s,
    responded (self s) = true ->
    after (self_send a) s
      (fun _ s' => responded (self s') = true /\
                   message (self s') = message (self s)).
Proof. intros a s Hr. open_state; run; settle; auto. Qed.

Lemma edit_origin_keeps_responded :
  forall f s,
    responded (self s) = true ->
    after (self_edit_origin f) s
      (fun _ s' => responded (self s') = true /\
                   message (self s') = message (self s)).
Proof. intros f s Hr. open_state; run; settle; auto. Qed.

Lemma perform_keeps_responded :
  forall op s,
    responded (self s) = true ->
    responded (self (snd (perform op s))) = true /\
    message (self (snd (perform op s))) = message (self s).
Proof.
  intros op s Hr. destruct op as [h e i|a|f]; cbn [perform].
  - exact (after_run _ _ _ (defer_keeps_responded h e i s Hr)).
  - apply (after_run (_ <- self_send a ;; ret tt) s
             (fun _ s' => responded (self s') = true /\
                          message (self s') = message (self s))).
    apply after_bind.
    eapply after_weaken; [exact (send_keeps_responded a s Hr)|].
    intros [r|x] s1 H1; [apply after_ret|]; exact H1.
  - exact (after_run _ _ _ (edit_origin_keeps_responded f s Hr)).
Qed.

(** X1 -- [responded] is final and [message] is written once: on a context
    whose [responded] flag is true, no sequence of [defer], [send] and
    [edit_origin] calls, returning or raising, clears the flag or assigns
    [message] again. *)
Theorem responded_is_final :
  forall (ops : list Call) (s : State),
    responded (self s) = true ->
    responded (self (run_calls ops s)) = true /\
    message (self (run_calls ops s)) = message (self s).
Proof.
  induction ops as [|op ops IH]; intros s Hr; cbn [run_calls].
  - split; [exact Hr | reflexivity].
  - destruct (perform_keeps_responded op s Hr) as [Hr1 Hm1].
    destruct (IH _ Hr1) as [Hr2 Hm2]. split; [exact Hr2|].
    rewrite Hm2. exact Hm1.
Qed.

(** X2 -- a [send] that returns has responded: it leaves [responded] true,
    and [deferred] false unless both flags were already true. *)
Theorem send_returned_has_responded :
  forall (a : SendArgs) (s : State) r s',
    self_send a s = (Returned r, s') ->
    responded (self s') = true /\
    (deferred (self s) && responded (self s) = false ->
     deferred (self s') = false).
Proof.
  intros a s r s' E.
  enough (after (self_send a) s
            (fun o s' => forall r, o = Returned r ->
               responded (self s') = true /\
               (deferred (self s) && responded (self s) = false ->
                deferred (self s') = false)))
    as H by exact (H _ _ E r eq_refl).
  clear E s' r. open_state; run; intros; try discriminate; settle; auto.
Qed.

(** X3 -- the fetch can fail after the response went out: on a context with
    both flags false, a visible [send] without attachments whose initial
    response is answered but whose following edit request raises, raises
    that exception and leaves both flags false, although the initial
    response has been posted. *)
Theorem send_fetch_failure_keeps_flags :
  forall (a : SendArgs) (s : State) embeds' files' j x,
    fresh (self s) ->
    send_checks a = Returned (embeds', files') ->
    list_truthy files' = false ->
    hidden a = false ->
    let posted :=
      post_initial_response
        [("type", JInt 4); ("data", JDict (send_base (self s) a embeds'))]
        (interaction_id (self s)) (_token (self s)) in
    http (log s) posted = Returned j ->
    http (Http posted :: log s) (edit [] (_token (self s)) None) = Raised x ->
    self_send a s
    = (Raised x,
       {| self := self s;
          log := Http (edit [] (_token (self s)) None)
                 :: Http posted :: log s |}).
Proof.
  intros a s embeds' files' j x [Hd Hr] Hc Hf Hh posted Hp He.
  subst posted. apply after_equal.
  destruct s as [[k tok iid ch au cu bam msg d r dh de] l].
  cbn [self log deferred responded _token interaction_id] in *.
  subst d r. destruct k; run; reflexivity.
Qed.

(** X4 -- an [edit_origin] that returns ran on a component context that
    had not responded, and leaves it responded and not deferred. *)
Theorem edit_origin_returned_has_responded :
  forall (f : Fields) (s s' : State),
    self_edit_origin f s = (Returned tt, s') ->
    cls (self s) = ComponentContext /\
    responded (self s) = false /\
    responded (self s') = true /\
    deferred (self s') = false.
Proof.
  intros f s s' E.
  enough (after (self_edit_origin f) s
            (fun o s' => o = Returned tt ->
               cls (self s) = ComponentContext /\
               responded (self s) = false /\
               responded (self s') = true /\
               deferred (self s') = false))
    as H by exact (H _ _ E eq_refl).
  clear E s'. open_state; run; intros; try discriminate; auto.
Qed.

(** X5 -- [edit_origin] checks its arguments before anything else: when
    they fail, the call raises the error of the failed check, "incorrect
    format", and leaves context and log as they were, in every state of a
    component context. *)
Theorem edit_origin_rejected_changes_nothing :
  forall (f : Fields) (s : State) x,
    cls (self s) = ComponentContext ->
    edit_origin_fields (self s) f = Raised x ->
    self_edit_origin f s = (Raised x, s) /\
    exists msg, x = IncorrectFormat msg.
Proof.
  intros f s x Hk Hx. split.
  - apply after_equal.
    destruct s as [[k tok iid ch au cu bam msg d r dh de] l].
    cbn [self cls] in *. subst k. run; reflexivity.
  - exact (edit_origin_fields_raises _ _ _ Hx).
Qed.

(** X6 -- a [defer] refused for its keywords changes nothing: on a context
    with both flags false, [edit_origin] together with [ignore], or
    [hidden] together with [edit_origin], raises "incorrect format" on a
    component or menu context, and a keyword other than [hidden] raises a
    [TypeError] on the other classes; the context and the log are left as
    they were, so the call can be made again. *)
Theorem defer_rejected_changes_nothing :
  forall (h : bool) (e i : option bool) (s : State),
    fresh (self s) ->
    defer_accepts (cls (self s)) h e i = false ->
    exists x,
      self_defer h e i s = (Raised x, s) /\
      match cls (self s) with
      | ComponentContext | MenuContext => exists msg, x = IncorrectFormat msg
      | _ => exists msg, x = TypeError msg
      end.
Proof.
  intros h e i s [Hd Hr] Hacc.
  destruct s as [[k tok iid ch au cu bam msg d r dh de] l].
  cbn [self cls deferred responded] in *. subst d r.
  unfold defer_accepts in Hacc.
  destruct k, e as [[]|], i as [[]|], h; cbn in Hacc; try discriminate;
    eexists; (split; [apply after_equal; run; reflexivity|]);
    cbn; eexists; reflexivity.
Qed.

(** *** The argument checks of [send] and [edit_origin] *)

Lemma embeds_length_test :
  forall n : nat, (10 <? n)%nat = negb (n <=? 10)%nat.
Proof.
  intros n. destruct (Nat.ltb_spec 10 n), (Nat.leb_spec n 10);
    try reflexivity; lia.
Qed.

(** The checks of [send], decided by [send_accepts]. *)
Lemma send_checks_decided :
  forall (a : SendArgs),
    (send_accepts a = true ->
     send_checks a = Returned (send_embeds a, send_files a)) /\
    (send_accepts a = false ->
     exists msg, send_checks a = Raised (IncorrectFormat msg)).
Proof.
  intros a. unfold send_accepts, send_checks, send_embeds, send_files.
  destruct (embed a) as [e|]; cbn [embed_given];
    [destruct (embed_truthy e)|];
    destruct (embeds a) as [|l|l];
    destruct (file a); destruct (list_truthy (files a));
    destruct (float_truthy (delete_after a)); destruct (hidden a);
    destruct (components a) as [[|c cs]|];
    unfold embeds_truthy;
    cbn [embeds_items embeds_is_list obj_truthy list_truthy items forallb
         andb orb negb];
    rewrite ?embeds_length_test;
    try (destruct l as [|x l]);
    cbn [andb orb negb length Nat.leb Nat.ltb];
    repeat match goal with
           | |- context [(?n <=? ?m)%nat] => destruct (n <=? m)%nat
           end;
    cbn [andb orb negb];
    try destruct (is_action_row c && forallb is_action_row cs);
    cbn [andb orb negb];
    (split; intros H; try discriminate H; try reflexivity;
     eexists; reflexivity).
Qed.

(** X7 -- [send] lets its arguments through exactly when none of its five
    conflicts is present: [embed] with [embeds]; [embeds] that is not a
    list or has more than ten items; [file] with [files]; [delete_after]
    with [hidden]; a top-level component that is not an action row. What it
    then works with is [embeds] and [files] with the single [embed] or
    [file] put in a list. *)
Theorem send_checks_accept :
  forall (a : SendArgs),
    (send_accepts a = true ->
     send_checks a = Returned (send_embeds a, send_files a)) /\
    (send_accepts a = false ->
     exists msg, send_checks a = Raised (IncorrectFormat msg)).
Proof. exact send_checks_decided. Qed.

(** X8 -- a [send] refused by its checks changes nothing: whatever the
    class and the flags, it raises "incorrect format", leaves the context
    as it was and makes no request, schedules no task and closes no
    file. *)
Theorem send_rejected_changes_nothing :
  forall (a : SendArgs) (s : State) o s',
    send_accepts a = false ->
    self_send a s = (o, s') ->
    (exists msg, o = Raised (IncorrectFormat msg)) /\
    self s' = self s /\
    requests (log s') = requests (log s) /\
    tasks (log s') = tasks (log s) /\
    closes (log s') = closes (log s).
Proof.
  intros a s o s' Hacc.
  destruct (proj2 (send_checks_decided a) Hacc) as [msg Hmsg].
  revert o s'.
  change (after (self_send a) s
            (fun o s' =>
               (exists msg, o = Raised (IncorrectFormat msg)) /\
               self s' = self s /\
               requests (log s') = requests (log s) /\
               tasks (log s') = tasks (log s) /\
               closes (log s') = closes (log s))).
  open_state; run; (split; [eexists; reflexivity|]); repeat split.
Qed.

Lemma dict_get_set_same :
  forall k v d, dict_get k (dict_set k v d) = Some v.
Proof.
  intros k v d. induction d as [|[k' v'] d IH]; cbn.
  - now rewrite String.eqb_refl.
  - destruct (String.eqb k k') eqn:E; cbn; rewrite ?String.eqb_refl, ?E; auto.
Qed.

Lemma dict_get_set_other :
  forall k k' v d, k <> k' -> dict_get k' (dict_set k v d) = dict_get k' d.
Proof.
  intros k k' v d Hne.
  assert (Hkk : String.eqb k' k = false)
    by (apply String.eqb_neq; congruence).
  induction d as [|[k0 v0] d IH]; cbn.
  - now rewrite Hkk.
  - destruct (String.eqb k k0) eqn:E; cbn.
    + apply String.eqb_eq in E. subst k0. now rewrite Hkk.
    + destruct (String.eqb k' k0); auto.
Qed.

Lemma dict_mem_set_same :
  forall k v d, dict_mem k (dict_set k v d) = true.
Proof. intros. unfold dict_mem. now rewrite dict_get_set_same. Qed.

(** X9 -- [edit_origin] lets its keyword arguments through exactly when
    [embeds], if present, is a list of at most ten items and [embed] is not
    present beside it, and [file] and [files] are not both given. Unlike
    [send] it tells a missing keyword from one bound to [None], and it does
    not look at the components. *)
Theorem edit_origin_fields_accept :
  forall (c : Ctx) (f : Fields),
    (edit_origin_accepts f = true ->
     exists body,
       edit_origin_fields c f
       = Returned (body, match f_file f with
                         | Some x => Some [x]
                         | None => f_files f
                         end)) /\
    (edit_origin_accepts f = false ->
     exists msg, edit_origin_fields c f = Raised (IncorrectFormat msg)).
Proof.
  intros c f. unfold edit_origin_accepts, edit_origin_fields, and_then.
  destruct (f_embeds f) as [[|l|l]|]; destruct (f_embed f) as [e|];
    destruct (f_file f); destruct (f_files f);
    destruct (f_components f); destruct (f_content f) as [[|]|];
    cbn [embeds_is_list embeds_items obj_truthy andb negb orb];
    rewrite ?embeds_length_test;
    repeat match goal with
           | |- context [(?n <=? ?m)%nat] => destruct (n <=? m)%nat
           end;
    cbn [andb negb orb];
    rewrite ?dict_mem_set_same;
    (split; intros H; try discriminate H; eexists; reflexivity).
Qed.

End FurtherProperties.

Section FurtherProperties2.
Context `{D : Discord}.

(** *** Files and requests of a [send] *)

Lemma closes_closed :
  forall fs l, closes (closed fs l) = (rev fs ++ closes l)%list.
Proof.
  unfold closed. induction fs as [|f fs IH]; intros l; cbn; [reflexivity|].
  rewrite IH. cbn. now rewrite <- app_assoc.
Qed.

(** X10 -- [send] closes the files it was given when it is done with them:
    a [send] that returns has closed each of them once, in the order
    given; a [send] that raises has closed none, whether it was refused or
    one of its requests failed. *)
Theorem send_closes_files :
  forall (a : SendArgs) (s : State) o s',
    self_send a s = (o, s') ->
    closes (log s')
    = match o with
      | Returned _ => (rev (items (send_files a)) ++ closes (log s))%list
      | Raised _ => closes (log s)
      end.
Proof.
  intros a s. 
  change (after (self_send a) s
            (fun o s' =>
               closes (log s')
               = match o with
                 | Returned _ => (rev (items (send_files a)) ++ closes (log s))%list
                 | Raised _ => closes (log s)
                 end)).
  destruct (send_accepts a) eqn:Hacc.
  - pose proof (proj1 (send_checks_decided a) Hacc) as Hc.
    destruct (send_files a) as [[|f fs]|] eqn:Hf;
      open_state; run; cbn [closes]; rewrite ?closes_closed; cbn [closes];
      try reflexivity; cbn in *; congruence.
  - destruct (proj2 (send_checks_decided a) Hacc) as [msg Hc].
    open_state; run; reflexivity.
Qed.

(** X11 -- after a [defer], [send] edits: on a context that is deferred and
    has not responded, a [send] whose arguments pass the checks makes
    exactly one request, the edit of the deferred response with the new
    payload and files -- no initial response and no followup -- whether
    that request is answered or fails; when it is answered the context is
    left responded and no longer deferred. *)
Theorem send_after_defer_edits :
  forall (a : SendArgs) (s : State) o s',
    deferred (self s) = true ->
    responded (self s) = false ->
    send_accepts a = true ->
    self_send a s = (o, s') ->
    requests (log s')
    = edit (send_base (self s) a (send_embeds a)) (_token (self s))
        (send_files a) :: requests (log s) /\
    ((exists r, o = Returned r) ->
     deferred (self s') = false /\ responded (self s') = true).
Proof.
  intros a s o s' Hd Hr Hacc.
  pose proof (proj1 (send_checks_decided a) Hacc) as Hc.
  revert o s'.
  change (after (self_send a) s
            (fun o s' =>
               requests (log s')
               = edit (send_base (self s) a (send_embeds a)) (_token (self s))
                   (send_files a) :: requests (log s) /\
               ((exists r, o = Returned r) ->
                deferred (self s') = false /\ responded (self s') = true))).
  open_state; run; cbn [requests]; rewrite ?requests_closed;
    cbn [requests]; (split; [reflexivity|]);
    intros [r Hr']; try discriminate; split; reflexivity.
Qed.

End FurtherProperties2.

Section PromptProperties.
Context `{D : Discord}.

(** *** The cleanup of the prompt *)

Lemma after_any {A} (m : M State A) s : after m s (fun _ _ => True).
Proof. intros o s' _. exact I. Qed.

Lemma send_sets_responded :
  forall a s,
    after (self_send a) s
      (fun o s' => forall r, o = Returned r -> responded (self s') = true).
Proof. intros a s. open_state; run; intros; try discriminate; reflexivity. Qed.

Lemma message_ref_of_dictionary :
  forall resp message,
    message_ref (RawResponse resp) = Returned message ->
    forall m, message <> MessageObject m.
Proof.
  intros resp message E m. unfold message_ref in E.
  destruct (json_truthy resp); [|inversion E; discriminate].
  destruct resp; try discriminate.
  destruct (dict_get "id" kv) as [v|]; [|discriminate].
  unfold and_then in E. destruct (py_int v); inversion E; discriminate.
Qed.

Lemma cleanup_cannot_delete :
  forall message buttons confirm expired h s,
    (forall m, message <> MessageObject m) ->
    after (_cleanup message buttons confirm true expired h) s
      (fun o _ => exists x, o = Raised x).
Proof.
  intros message buttons confirm expired h s Hm.
  unfold _cleanup. apply after_bind. apply after_when.
  rewrite orb_true_r. apply after_bind.
  eapply after_weaken; [apply after_any|].
  intros [r|x] s1 _; [|eexists; reflexivity].
  apply after_ret. cbv beta iota.
  destruct message as [m| |]; [destruct (Hm m eq_refl)| |];
    unfold message_delete; apply after_raise; eexists; reflexivity.
Qed.

(** X12 -- a hidden prompt cannot delete its message: what a hidden [send]
    returns is a dictionary, of which [prompt] keeps the id or [None],
    never a message object; and [_cleanup] with [delete_after] on such a
    reference always raises (at [message.delete()], or earlier if posting
    the result failed), on every context and in every state. *)
Theorem hidden_prompt_cleanup_raises :
  forall (a : SendArgs) (s s' : State) r message,
    hidden a = true ->
    self_send a s = (Returned r, s') ->
    message_ref r = Returned message ->
    (forall m, message <> MessageObject m) /\
    forall buttons confirm expired h t o t',
      _cleanup message buttons confirm true expired h t = (o, t') ->
      exists x, o = Raised x.
Proof.
  intros a s s' r message Hh Hsend Hmsg.
  assert (Hm : forall m, message <> MessageObject m).
  { destruct (send_hidden a s Hh _ _ Hsend) as (_ & _ & Hr).
    destruct (Hr r eq_refl) as (e & f & resp & _ & -> & _).
    exact (message_ref_of_dictionary resp message Hmsg). }
  split; [exact Hm|]. intros buttons confirm expired h t o t' E.
  exact (cleanup_cannot_delete message buttons confirm expired h t Hm _ _ E).
Qed.

Lemma send_on_responded :
  forall a s,
    responded (self s) = true ->
    after (self_send a) s
      (fun _ s' =>
         responded (self s') = true /\
         (requests (log s') = requests (log s) \/
          exists body token files,
            requests (log s')
            = post_followup body token files :: requests (log s))).
Proof.
  intros a s Hr.
  open_state; run; cbn [requests]; rewrite ?requests_closed;
    cbn [requests]; (split; [reflexivity|]);
    first [left; reflexivity | right; do 3 eexists; reflexivity].
Qed.

Lemma edit_origin_on_responded :
  forall f s,
    responded (self s) = true ->
    after (self_edit_origin f) s
      (fun o s' => (exists x, o = Raised x) /\ s' = s).
Proof.
  intros f s Hr. open_state; run; split; eauto.
Qed.

Lemma cleanup_on_responded_full :
  forall message buttons confirm expired h (s : State) o s',
    responded (self s) = true ->
    _cleanup message buttons confirm false expired h s = (o, s') ->
    (exists x, o = Raised x) /\
    responded (self s') = true /\
    (requests (log s') = requests (log s) \/
     exists body token files,
       requests (log s') = post_followup body token files :: requests (log s)).
Proof.
  intros message buttons confirm expired h s o s' Hr. revert o s'.
  change (after (_cleanup message buttons confirm false expired h) s
            (fun o s' =>
               (exists x, o = Raised x) /\
               responded (self s') = true /\
               (requests (log s') = requests (log s) \/
                exists body token files,
                  requests (log s')
                  = post_followup body token files :: requests (log s)))).
  assert (Htail : forall s1,
             responded (self s1) = true ->
             after (buttons' <- lift (disable_rows buttons) ;;
                    message' <- lift (recolor message confirm expired) ;;
                    self_edit_origin
                      {| f_content := None;
                         f_components := Some (Some buttons');
                         f_embeds := Some (EmbedsList (msg_embeds message'));
                         f_embed := None; f_file := None; f_files := None;
                         f_allowed_mentions := None |}) s1
               (fun o s' => (exists x, o = Raised x) /\ s' = s1)).
  { intros s1 H1. apply after_bind, after_lift.
    destruct (disable_rows buttons) as [bs|x]; [|split; eauto].
    apply after_bind, after_lift.
    destruct (recolor message confirm expired) as [m'|x]; [|split; eauto].
    apply edit_origin_on_responded, H1. }
  unfold _cleanup. apply after_bind, after_when. rewrite orb_false_r.
  destruct h.
  - apply after_bind.
    eapply after_weaken; [apply (send_on_responded _ s Hr)|].
    intros [r|x] s1 (Hr1 & Hq1).
    + apply after_ret. cbv beta iota.
      eapply after_weaken; [apply (Htail s1 Hr1)|].
      intros o s2 (Hx & ->). auto.
    + split; [eauto|]. auto.
  - cbv beta iota.
    eapply after_weaken; [apply (Htail s Hr)|].
    intros o s2 (Hx & ->). auto.
Qed.


Lemma cleanup_on_responded_aux :
  forall message buttons confirm expired h (s : State),
    responded (self s) = true ->
    forall o s',
      _cleanup message buttons confirm false expired h s = (o, s') ->
      exists x, o = Raised x.
Proof.
  intros message buttons confirm expired h s Hr o s' E.
  exact (proj1 (cleanup_on_responded_full _ _ _ _ _ _ _ _ Hr E)).
Qed.

(** X13 -- [_cleanup] cannot update the message through a context that has
    already responded: without [delete_after], on a context whose
    [responded] flag is true, it always raises -- its last step is
    [edit_origin], which such a context refuses or does not have -- and
    the only request it may have made is the followup carrying the
    result. *)
Theorem cleanup_on_responded_context_raises :
  forall message buttons confirm expired h (s : State) o s',
    responded (self s) = true ->
    _cleanup message buttons confirm false expired h s = (o, s') ->
    (exists x, o = Raised x) /\
    responded (self s') = true /\
    (requests (log s') = requests (log s) \/
     exists body token files,
       requests (log s') = post_followup body token files :: requests (log s)).
Proof. exact cleanup_on_responded_full. Qed.

End PromptProperties.

Ltac enter_prompt Hsend Hmsg Hwait :=
  unfold prompt;
  unfold bind at 1; unfold get at 1; cbv beta iota;
  unfold bind at 1; rewrite Hsend;
  unfold bind at 1; unfold lift at 1; rewrite Hmsg; rewrite Hwait;
  unfold bind at 1; unfold try_except.

Section PromptRuns.
Context `{D : Discord}.

(** *** The runs of [prompt] *)

Lemma prompt_attempt_keeps_self :
  forall p arrived s,
    after (prompt_attempt p arrived) s (fun _ s' => self s' = self s).
Proof.
  intros p arrived s. unfold prompt_attempt.
  apply after_bind, after_lift. destruct arrived as [b|x]; [|reflexivity].
  apply after_bind, after_on.
  eapply after_weaken; [apply after_any|].
  intros [[]|x] s1 _; cbn [self]; [|reflexivity].
  apply after_ret. reflexivity.
Qed.

(** X14 -- a click or a timeout always yields the answer: once the first
    [send] of [prompt] has returned, if the wait delivers a button context
    and the [defer] on it returns, or if the wait times out and the notice
    is sent, then [prompt] returns [confirm] (with the message when
    [return_message] is set and the prompt is not hidden), whatever the
    final cleanup does -- what the cleanup raises is discarded by the
    [return] in [finally]. *)
Theorem prompt_returns_answer :
  forall (p : PromptArgs) arrivals ending (s s1 s2 : State)
         _message message arrived confirm,
    self_send (plain_send (prompt_embed p) (p_hidden p) None
                 (Some prompt_buttons)) s = (Returned _message, s1) ->
    message_ref _message = Returned message ->
    wait_for_component (prompt_author p (self s)) arrivals ending None
      = (arrived, confirm) ->
    let result :=
      if return_message p && negb (p_hidden p)
      then ConfirmAndMessage confirm message
      else Confirm confirm in
    (forall next,
       prompt_attempt p arrived s1 = (Returned next, s2) ->
       exists s3, prompt p arrivals ending s = (Returned result, s3)) /\
    (forall r s3,
       prompt_attempt p arrived s1 = (Raised TimeoutError, s2) ->
       self_send (plain_send
                    (generate_result_embed "Took too long" error false)
                    true None None) s2 = (Returned r, s3) ->
       exists s4, prompt p arrivals ending s = (Returned result, s4)).
Proof.
  intros p arrivals ending s s1 s2 _message message arrived confirm
         Hsend Hmsg Hwait result.
  split.
  - intros next Htry.
    assert (Hnext : exists b, next = Continue (Some b) false).
    { revert Htry. unfold prompt_attempt, bind, lift, on, ret.
      destruct arrived as [b|x]; [|discriminate].
      destruct (self_defer (p_hidden p) None None _) as [[[]|x] t];
        intros E; inversion E; eauto. }
    destruct Hnext as [b ->].
    enter_prompt Hsend Hmsg Hwait. rewrite Htry.
    unfold finally_return. eexists. reflexivity.
  - intros r s3 Htry Hnotice.
    enter_prompt Hsend Hmsg Hwait. rewrite Htry.
    unfold bind at 1. rewrite Hnotice.
    unfold finally_return, ret. eexists. reflexivity.
Qed.

(** X15 -- a cancelled prompt that is not to delete its message always
    raises: when the [try] block of [prompt] is cancelled and
    [delete_after] is false, the handler's [_cleanup] runs on the prompt's
    own context, which has responded by then, so its [edit_origin] cannot
    go through; [prompt] raises what that cleanup raises and returns no
    answer. *)
Theorem prompt_cancelled_without_delete_raises :
  forall (p : PromptArgs) arrivals ending (s s1 s2 : State)
         _message message arrived confirm,
    p_delete_after p = false ->
    self_send (plain_send (prompt_embed p) (p_hidden p) None
                 (Some prompt_buttons)) s = (Returned _message, s1) ->
    message_ref _message = Returned message ->
    wait_for_component (prompt_author p (self s)) arrivals ending None
      = (arrived, confirm) ->
    prompt_attempt p arrived s1 = (Raised CancelledError, s2) ->
    exists x s3, prompt p arrivals ending s = (Raised x, s3).
Proof.
  intros p arrivals ending s s1 s2 _message message arrived confirm
         Hdel Hsend Hmsg Hwait Htry.
  assert (Hr : responded (self s2) = true).
  { rewrite (prompt_attempt_keeps_self p arrived s1 _ _ Htry).
    exact (send_sets_responded _ s _ _ Hsend _ eq_refl). }
  enter_prompt Hsend Hmsg Hwait. rewrite Htry, Hdel.
  unfold bind at 1.
  destruct (_cleanup message prompt_buttons confirm false false (p_hidden p) s2)
    as [o s3] eqn:E.
  destruct (cleanup_on_responded_aux _ _ _ _ _ _ Hr _ _ E) as [x ->].
  eauto.
Qed.

End PromptRuns.

(** *** The loop of [_cleanup] over the buttons *)

Lemma dict_set_set :
  forall k v d, dict_set k v (dict_set k v d) = dict_set k v d.
Proof.
  intros k v d. induction d as [|[k' v'] d IH]; cbn.
  - now rewrite String.eqb_refl.
  - destruct (String.eqb k k') eqn:E; cbn; rewrite ?String.eqb_refl, ?E;
      congruence.
Qed.

Lemma disable_buttons_returns :
  forall bs,
    Forall (fun b => exists kv, b = JDict kv) bs ->
    exists bs',
      disable_buttons bs = Returned bs' /\
      Forall2 disabled_copy bs bs' /\
      disable_buttons bs' = Returned bs'.
Proof.
  induction 1 as [|b bs [kv ->] _ (bs' & E & Hcopy & Hidem)].
  - exists []. repeat split; constructor.
  - exists (JDict (dict_set "disabled" (JBool true) kv) :: bs').
    cbn. rewrite E. cbn. rewrite dict_set_set, Hidem. cbn.
    repeat split. constructor; [|exact Hcopy].
    exists kv, (dict_set "disabled" (JBool true) kv).
    repeat split.
    + apply dict_get_set_same.
    + intros k Hk. apply dict_get_set_other. congruence.
Qed.

(** X16 -- the loop of [_cleanup] disables every button and nothing else:
    on rows whose ["components"] is a list of dictionaries it returns as
    many rows, each with every other key as it was and with one button for
    each button it had, which has ["disabled"] bound to [True] and every
    other key as it was; running the loop again changes nothing. *)
Theorem disable_rows_disables_every_button :
  forall rows,
    Forall (fun row =>
              exists bs,
                dict_get "components" row = Some (JList bs) /\
                Forall (fun b => exists kv, b = JDict kv) bs) rows ->
    exists rows',
      disable_rows rows = Returned rows' /\
      Forall2 (fun row row' =>
                 (forall k, k <> "components" ->
                            dict_get k row' = dict_get k row) /\
                 exists bs bs',
                   dict_get "components" row = Some (JList bs) /\
                   dict_get "components" row' = Some (JList bs') /\
                   Forall2 disabled_copy bs bs') rows rows' /\
      disable_rows rows' = Returned rows'.
Proof.
  induction 1 as [|row rows (bs & Hget & Hbs) _ (rows' & E & Hcopy & Hidem)].
  - exists []. repeat split; constructor.
  - destruct (disable_buttons_returns bs Hbs) as (bs' & Eb & Hb & Hbi).
    exists (dict_set "components" (JList bs') row :: rows').
    cbn. unfold disable_row.
    rewrite Hget, Eb. cbn. rewrite E. cbn.
    rewrite dict_get_set_same, Hbi. cbn. rewrite dict_set_set, Hidem. cbn.
    repeat split. constructor; [|exact Hcopy].
    split.
    + intros k Hk. apply dict_get_set_other. congruence.
    + exists bs, bs'. repeat split; auto. apply dict_get_set_same.
Qed.

Section EmbedProperties.
Context `{D : Discord}.

(** *** The shared dictionaries of [EmbedType] *)

(** X17 -- a title given once stays: [generate_result_embed] stores a
    non-empty [title] in the dictionary of the enumeration member, so a
    later call for the same member that gives no title gets the earlier
    call's title, not the declared one. The description does not carry
    over, it is stored anew by every call, and the dictionaries of the
    other members are left as they were. *)
Theorem generate_result_embed_title_sticks :
  forall (values : EmbedValues) m1 m2 (result_type : EmbedType) t c1 c2,
    t <> "" ->
    let values1 :=
      snd (generate_result_embed_on values m1 result_type (Some t) c1) in
    let later := fst (generate_result_embed_on values1 m2 result_type None c2) in
    title later = Some t /\
    description later = Some (if c2 then m2 ++ contact_line else m2) /\
    forall u, u <> result_type -> values1 u = values u.
Proof.
  intros values m1 m2 rt t c1 c2 Ht.
  assert (E : String.eqb t "" = false) by (now apply String.eqb_neq).
  unfold generate_result_embed_on. cbn [fst snd]. rewrite E. cbn [negb].
  assert (Hrt : EmbedType_eqb rt rt = true) by (destruct rt; reflexivity).
  rewrite Hrt.
  repeat split.
  - destruct c1, c2; reflexivity.
  - destruct c1, c2; reflexivity.
  - intros u Hu.
    assert (Hne : EmbedType_eqb u rt = false)
      by (destruct u, rt; try reflexivity; congruence).
    now rewrite Hne.
Qed.

(** X18 -- without a title the dictionaries keep what the class declares:
    as long as the titles and colours in them are the declared ones, a call
    that gives no title (or an empty one) returns the embed with the
    member's own colour and title, the message as description and the time
    as footer, and leaves the titles and colours as declared. The module
    itself never gives a title. *)
Theorem generate_result_embed_untitled :
  forall (values : EmbedValues) message (result_type : EmbedType) title'
         contact_me,
    (forall t, (kw_color (values t), kw_title (values t)) = EmbedType_value t) ->
    title' = None \/ title' = Some "" ->
    fst (generate_result_embed_on values message result_type title' contact_me)
    = generate_result_embed message result_type contact_me /\
    forall t,
      let values' :=
        snd (generate_result_embed_on values message result_type title'
               contact_me) in
      (kw_color (values' t), kw_title (values' t)) = EmbedType_value t.
Proof.
  intros values message rt title' contact_me Hdecl Htitle.
  unfold generate_result_embed_on, generate_result_embed, contact_line.
  pose proof (Hdecl rt) as Hrt.
  destruct (EmbedType_value rt) as [c ti] eqn:Ev.
  inversion Hrt as [[Hc Hti]].
  split.
  - destruct Htitle as [-> | ->]; cbn [fst negb String.eqb];
      destruct contact_me; cbn; rewrite ?Hc, ?Hti; reflexivity.
  - intros t. cbn [snd].
    destruct (EmbedType_eqb t rt) eqn:Et; [|apply Hdecl].
    assert (t = rt) by (destruct t, rt; try discriminate; reflexivity).
    subst t. rewrite Ev.
    destruct Htitle as [-> | ->]; cbn [negb String.eqb];
      destruct contact_me; cbn; congruence.
Qed.

End EmbedProperties.

(** *** The data models *)

Lemma dict_get_absent :
  forall k (d : Dict), ~ In k (map fst d) -> dict_get k d = None.
Proof.
  intros k d. induction d as [|[k' v'] d IH]; cbn; [reflexivity|].
  intros Hn. destruct (String.eqb k k') eqn:E.
  - apply String.eqb_eq in E. subst. tauto.
  - apply IH. tauto.
Qed.

Lemma dict_get_update :
  forall kwargs d k,
    NoDup (map fst kwargs) ->
    dict_get k (dict_update d kwargs)
    = match dict_get k kwargs with
      | Some v => Some v
      | None => dict_get k d
      end.
Proof.
  unfold dict_update.
  induction kwargs as [|[k0 v0] kwargs IH]; intros d k Hnd; cbn;
    [reflexivity|].
  inversion Hnd as [|? ? Hnotin Hnd']; subst.
  rewrite (IH _ _ Hnd').
  destruct (String.eqb k k0) eqn:E.
  - apply String.eqb_eq in E. subst k0.
    now rewrite (dict_get_absent _ _ Hnotin), dict_get_set_same.
  - assert (k0 <> k) by (intros ->; now rewrite String.eqb_refl in E).
    now rewrite dict_get_set_other.
Qed.

(** X19 -- a [User] cannot be built: the class declares [__slots__], so its
    instances have no [__dict__], and its [__init__] reads [self.__dict__];
    every call of the class, with any keyword arguments or none, raises
    [AttributeError]. *)
Theorem User_construction_always_raises :
  forall kwargs, exists msg, construct User kwargs = Raised (AttributeError msg).
Proof. intros kwargs. eexists. reflexivity. Qed.

(** X20 -- [Message] and [Emoji] hold exactly the keyword arguments they
    are built from: the call returns for any keywords, each keyword is then
    an attribute with the value given, and reading any other name raises
    [AttributeError] -- the fields the class annotates are not attributes
    until they are supplied. *)
Theorem Message_holds_its_keywords :
  forall c kwargs,
    c = Message \/ c = Emoji ->
    NoDup (map fst kwargs) ->
    exists obj,
      construct c kwargs = Returned obj /\
      forall name,
        getattr obj name
        = match dict_get name kwargs with
          | Some v => Returned v
          | None => Raised (AttributeError name)
          end.
Proof.
  intros c kwargs Hc Hnd.
  destruct Hc as [-> | ->]; (eexists; split; [reflexivity|]);
    intros name; unfold getattr; cbn [instance_dict];
    rewrite (dict_get_update _ _ _ Hnd); cbn [dict_get];
    destruct (dict_get name kwargs); reflexivity.
Qed.

(** X21 -- the classes with [__slots__] and no [__init__]
    ([MessageActivity], [MessageReference], [Attachment]) take no
    arguments: the call returns only without keywords, and the object it
    returns has no attribute set, so reading any field raises
    [AttributeError]. A field is there once it is assigned, only declared
    slots can be assigned, and an assignment leaves the other fields as
    they were. *)
Theorem slotted_models_start_empty :
  forall c,
    c = MessageActivity \/ c = MessageReference \/ c = Attachment ->
    (forall kwargs,
       (kwargs = [] -> construct c kwargs = Returned (allocate c)) /\
       (kwargs <> [] -> exists msg, construct c kwargs = Raised (TypeError msg))) /\
    (forall name, getattr (allocate c) name = Raised (AttributeError name)) /\
    (forall name v,
       if is_slot c name
       then exists obj,
           setattr (allocate c) name v = Returned obj /\
           getattr obj name = Returned v /\
           forall other, other <> name ->
                         getattr obj other = Raised (AttributeError other)
       else setattr (allocate c) name v = Raised (AttributeError name)).
Proof.
  intros c Hc.
  assert (Hs : exists sl, class_slots c = Some sl /\ updates_dict c = false)
    by (destruct Hc as [-> | [-> | ->]]; eexists; split; reflexivity).
  destruct Hs as (sl & Hsl & Hupd).
  repeat split.
  - intros ->. unfold construct. now rewrite Hupd.
  - intros Hne. unfold construct. rewrite Hupd.
    destruct kwargs; [congruence|]. eexists. reflexivity.
  - intros name. unfold getattr, allocate. cbn [instance_dict class_of slot_values].
    rewrite Hsl. destruct (is_slot c name); reflexivity.
  - intros name v. unfold setattr, allocate.
    cbn [instance_dict class_of slot_values]. rewrite Hsl.
    destruct (is_slot c name) eqn:Es; [|reflexivity].
    eexists. split; [reflexivity|]. unfold getattr.
    cbn [instance_dict class_of slot_values dict_set dict_get].
    rewrite Es, String.eqb_refl. split; [reflexivity|].
    intros other Ho.
    assert (E : String.eqb other name = false) by (now apply String.eqb_neq).
    rewrite E. destruct (is_slot c other); reflexivity.
Qed.

Section WarningProperties.
Context `{D : Discord}.

(** *** The warnings and the marks a [defer] leaves *)

Lemma warnings_closed :
  forall fs l, warnings (closed fs l) = warnings l.
Proof.
  unfold closed. induction fs as [|f fs IH]; intros l; cbn; [reflexivity|].
  now rewrite IH.
Qed.

Ltac open_marks s :=
  let k := fresh "k" in
  let d := fresh "d" in
  let r := fresh "r" in
  let dh := fresh "dh" in
  let de := fresh "de" in
  destruct s as [[k ?tok ?iid ?ch ?au ?cu ?bam ?msg d r dh de] ?l];
  cbn [self log cls deferred responded _deferred_hidden _deferred_edit_origin
       andb orb negb] in *.

Lemma defer_keeps_deferred_hidden :
  forall h e i s,
    _deferred_hidden (self s) = true ->
    after (self_defer h e i) s (fun _ s' => _deferred_hidden (self s') = true).
Proof.
  intros h e i s Hm. open_marks s. subst.
  destruct k, d, r; run; reflexivity.
Qed.

Lemma send_keeps_deferred_hidden :
  forall a s,
    _deferred_hidden (self s) = true ->
    after (self_send a) s (fun _ s' => _deferred_hidden (self s') = true).
Proof.
  intros a s Hm. open_marks s. subst.
  destruct k, d, r; run; reflexivity.
Qed.

Lemma edit_origin_keeps_deferred_hidden :
  forall f s,
    _deferred_hidden (self s) = true ->
    after (self_edit_origin f) s
      (fun _ s' => _deferred_hidden (self s') = true).
Proof.
  intros f s Hm. open_marks s. subst.
  destruct k, d, r; run; reflexivity.
Qed.

(** X22 -- the mark of a hidden [defer] is never taken back: once
    [_deferred_hidden] is true, no sequence of [defer], [send] and
    [edit_origin] calls, returning or raising, sets it to false again; no
    method assigns [False] to it. *)
Theorem deferred_hidden_never_reset :
  forall (ops : list Call) (s : State),
    _deferred_hidden (self s) = true ->
    _deferred_hidden (self (run_calls ops s)) = true.
Proof.
  induction ops as [|op ops IH]; intros s Hm; cbn [run_calls]; [exact Hm|].
  apply IH. destruct op as [h e i|a|f]; cbn [perform].
  - exact (after_run _ _ _ (defer_keeps_deferred_hidden h e i s Hm)).
  - apply (after_run (_ <- self_send a ;; ret tt) s
             (fun _ s' => _deferred_hidden (self s') = true)).
    apply after_bind.
    eapply after_weaken; [exact (send_keeps_deferred_hidden a s Hm)|].
    intros [r|x] s1 H1; [apply after_ret|]; exact H1.
  - exact (after_run _ _ _ (edit_origin_keeps_deferred_hidden f s Hm)).
Qed.

(** X23 -- a hidden [defer] marks the context before its request is made:
    on a context with both flags false, a [defer] with [hidden] that the
    class accepts and whose request fails raises what the request raised
    and leaves both flags false, yet [_deferred_hidden] is left true. *)
Theorem failed_hidden_defer_leaves_its_mark :
  forall (e i : option bool) (s : State) x,
    fresh (self s) ->
    defer_accepts (cls (self s)) true e i = true ->
    (forall body,
       http (log s)
         (post_initial_response body (interaction_id (self s))
            (_token (self s))) = Raised x) ->
    exists s',
      self_defer true e i s = (Raised x, s') /\
      fresh (self s') /\
      _deferred_hidden (self s') = true /\
      requests (log s') <> requests (log s).
Proof.
  intros e i s x [Hd Hr] Hacc Hfail.
  destruct s as [[k tok iid ch au cu bam msg d r dh de] l].
  cbn [self log cls deferred responded _token interaction_id] in *.
  subst d r.
  destruct (self_defer true e i _) as [o s'] eqn:E.
  revert o s' E.
  match goal with
  | |- forall o s', ?m ?s = (o, s') -> @?Q o s' => change (after m s Q)
  end.
  destruct k, e as [[]|], i as [[]|]; try discriminate Hacc;
    run; rewrite ?Hfail in *; try discriminate;
    try match goal with H : Raised _ = Raised _ |- _ => inversion H; subst end;
    eexists; (split; [reflexivity|]); cbn [self log requests];
    (repeat split; try reflexivity);
    intros Heq; apply (f_equal (@length _)) in Heq; cbn in Heq; lia.
Qed.

(** X24 -- what [send] warns about on a deferred context: with both the
    flags as a [defer] leaves them and arguments that pass the checks,
    [send] logs the hidden/visible warning exactly when [hidden] differs
    from [_deferred_hidden], and, before it, on a component or menu context
    the response-type warning exactly when the [defer] was one with
    [edit_origin]; it logs no other warning, whether its request is
    answered or fails. *)
Theorem send_after_defer_warns_on_mismatch :
  forall (a : SendArgs) (s : State) o s',
    deferred (self s) = true ->
    responded (self s) = false ->
    send_accepts a = true ->
    self_send a s = (o, s') ->
    warnings (log s')
    = ((if Bool.eqb (_deferred_hidden (self s)) (hidden a)
        then [] else [hidden_mismatch_msg])
       ++ (match cls (self s) with
           | ComponentContext | MenuContext =>
               if _deferred_edit_origin (self s)
               then [edit_origin_mismatch_msg] else []
           | _ => []
           end)
       ++ warnings (log s))%list.
Proof.
  intros a s o s' Hd Hr Hacc.
  pose proof (proj1 (send_checks_decided a) Hacc) as Hc.
  revert o s'.
  match goal with
  | |- forall o s', ?m ?s = (o, s') -> @?Q o s' => change (after m s Q)
  end.
  destruct s as [[k tok iid ch au cu bam msg d r dh de] l].
  cbn [self log cls deferred responded _deferred_hidden
       _deferred_edit_origin] in *.
  subst d r.
  destruct k, dh, de, (hidden a) eqn:Hh; run;
    cbn [warnings]; rewrite ?warnings_closed; cbn [warnings Bool.eqb app];
    try reflexivity; try discriminate;
    match goal with
    | H : Bool.eqb _ (hidden a) = _ |- _ =>
        rewrite Hh in H; cbn in H; discriminate H
    end.
Qed.

(** X25 -- a context that no [defer] has marked gets no warning from
    [send]: with [deferred] and [_deferred_hidden] both false, a [send]
    logs no warning, whatever its arguments and whatever becomes of its
    requests -- the [defer] it makes itself for attachments is made with
    its own [hidden]. *)
Theorem send_without_defer_never_warns :
  forall (a : SendArgs) (s : State) o s',
    deferred (self s) = false ->
    _deferred_hidden (self s) = false ->
    self_send a s = (o, s') ->
    warnings (log s') = warnings (log s).
Proof.
  intros a s o s' Hd Hm.
  revert o s'.
  match goal with
  | |- forall o s', ?m ?s = (o, s') -> @?Q o s' => change (after m s Q)
  end.
  destruct s as [[k tok iid ch au cu bam msg d r dh de] l].
  cbn [self log cls deferred responded _deferred_hidden
       _deferred_edit_origin] in *.
  subst d dh.
  destruct k, r; run;
    cbn [warnings]; rewrite ?warnings_closed; cbn [warnings Bool.eqb app];
    try reflexivity; try discriminate.
Qed.

End WarningProperties.

Section EditOriginProperties.
Context `{D : Discord}.

(** *** The requests and files of an [edit_origin] *)

(** X26 -- what [edit_origin] asks of the dispatcher: on a component
    context that has not responded, with keyword arguments that pass the
    checks, a deferred context gets one request, the edit carrying the
    payload and the files; a context that is not deferred gets, without
    attachments, one initial response of type 7 carrying the payload, and
    with attachments first a [defer] of type 6 without data and then, if
    that was answered, the edit. No followup is ever posted. *)
Theorem edit_origin_requests_by_state :
  forall (f : Fields) (s : State) body files' o s',
    cls (self s) = ComponentContext ->
    responded (self s) = false ->
    edit_origin_fields (self s) f = Returned (body, files') ->
    self_edit_origin f s = (o, s') ->
    let tok := _token (self s) in
    let iid := interaction_id (self s) in
    let the_edit := edit body tok files' in
    if deferred (self s)
    then requests (log s') = the_edit :: requests (log s)
    else if list_truthy files'
    then
      let the_defer := post_initial_response [("type", JInt 6)] iid tok in
      requests (log s') = the_edit :: the_defer :: requests (log s) \/
      (requests (log s') = the_defer :: requests (log s) /\
       exists x, o = Raised x)
    else
      requests (log s')
      = post_initial_response [("type", JInt 7); ("data", JDict body)] iid tok
        :: requests (log s).
Proof.
  intros f s body files' o s' Hk Hr Hc.
  revert o s'.
  match goal with
  | |- forall o s', ?m ?s = (o, s') -> @?Q o s' => change (after m s Q)
  end.
  destruct s as [[k tok iid ch au cu bam msg d r dh de] l].
  cbn [self log cls deferred responded _token interaction_id] in *.
  subst k r.
  destruct d, (list_truthy files') eqn:Hf; run;
    cbn [requests]; rewrite ?requests_closed; cbn [requests];
    try reflexivity; try discriminate;
    try (left; reflexivity);
    try (right; split; [reflexivity|eexists; reflexivity]).
Qed.

(** X27 -- [edit_origin] closes the files it was given once its request is
    through: an [edit_origin] that returns has closed each of them, in the
    order given, and one that raises has closed none. *)
Theorem edit_origin_closes_files :
  forall (f : Fields) (s : State) body files' o s',
    cls (self s) = ComponentContext ->
    edit_origin_fields (self s) f = Returned (body, files') ->
    self_edit_origin f s = (o, s') ->
    closes (log s')
    = match o with
      | Returned _ => (rev (items files') ++ closes (log s))%list
      | Raised _ => closes (log s)
      end.
Proof.
  intros f s body files' o s' Hk Hc.
  revert o s'.
  match goal with
  | |- forall o s', ?m ?s = (o, s') -> @?Q o s' => change (after m s Q)
  end.
  destruct s as [[k tok iid ch au cu bam msg d r dh de] l].
  cbn [self log cls deferred responded _token interaction_id] in *.
  subst k.
  destruct files' as [[|x xs]|]; destruct d, r; run;
    cbn [closes]; rewrite ?closes_closed; cbn [closes items];
    try reflexivity; cbn in *; congruence.
Qed.

End EditOriginProperties.

(** ** Closed examples

    Each general statement above, used once on the concrete setting of
    [Sample]; and the runs that separate the code from the wording of the
    specification. *)

#[local] Existing Instance Sample.discord.

Lemma sample_replies : @replies Sample.discord.
Proof. intros l r. eexists. reflexivity. Qed.

(** Two [defer]s in a row on a component context: the first returns, the
    second raises "already responded". *)
Lemma defer_only_legal_when_fresh_witness :
  let s := Sample.state ComponentContext false false in
  let s' := snd (ComponentContext_defer false false false s) in
  ComponentContext_defer false false false s = (Returned tt, s') /\
  fresh (self s) /\
  ComponentContext_defer false false false s'
  = (Raised (AlreadyResponded already_responded_msg), s') /\
  InteractionContext_defer true (Sample.state SlashContext false true)
  = (Raised (AlreadyResponded already_responded_msg),
     Sample.state SlashContext false true) /\
  (let t := snd (InteractionContext_defer false
                   (Sample.state SlashContext false false)) in
   InteractionContext_defer true t
   = (Raised (AlreadyResponded already_responded_msg), t)).
Proof.
  cbv zeta.
  pose (s := Sample.state ComponentContext false false).
  pose (s' := snd (ComponentContext_defer false false false s)).
  assert (E : ComponentContext_defer false false false s = (Returned tt, s'))
    by reflexivity.
  destruct (proj2 (proj2 (@defer_only_legal_when_fresh Sample.discord s))
              false false false s' E) as [Hf Hagain].
  split; [exact E|]. split; [exact Hf|].
  split; [exact (Hagain false false false)|].
  split.
  - exact (proj1 (proj1 (@defer_only_legal_when_fresh Sample.discord
                           (Sample.state SlashContext false true))
                    (or_intror eq_refl)) true).
  - exact (proj2 (proj1 (proj2 (@defer_only_legal_when_fresh Sample.discord
                                  (Sample.state SlashContext false false)))
                    false _ eq_refl) true).
Defined.

(** A plain [defer] from a new slash context leaves it deferred. *)
Lemma defer_transition_witness :
  let s := Sample.state SlashContext false false in
  let s' := snd (self_defer true None None s) in
  fresh (self s) /\
  self_defer true None None s = (Returned tt, s') /\
  deferred (self s') = true /\ responded (self s') = false.
Proof.
  cbv zeta. split; [split; reflexivity|]. split; [reflexivity|].
  exact (@defer_transition Sample.discord true None None
           (Sample.state SlashContext false false) _
           (conj eq_refl eq_refl) eq_refl).
Defined.

(** C4, the run that contradicts it: [defer(ignore=True)] on a new component
    context returns with [deferred] still false and [responded] true. *)
Lemma defer_ignore_goes_to_responded :
  let s := Sample.state ComponentContext false false in
  let s' := snd (self_defer false None (Some true) s) in
  fresh (self s) /\
  self_defer false None (Some true) s = (Returned tt, s') /\
  deferred (self s') = false /\ responded (self s') = true.
Proof. cbv zeta. repeat split; reflexivity. Qed.

(** [send("hi")] on a responded context posts one followup. *)
Lemma send_after_responded_is_followup_witness :
  let s := Sample.state SlashContext false true in
  responded (self s) = true /\
  requests (log (snd (self_send Sample.hello s)))
  = [post_followup (send_base (self s) Sample.hello EmbedsNone) "token" None].
Proof.
  cbv zeta. split; [reflexivity|].
  exact (@send_after_responded_is_followup Sample.discord Sample.hello
           (Sample.state SlashContext false true) _ _ eq_refl eq_refl).
Defined.

(** C1, the run that contradicts it: on a responded context,
    [send(embed=e, embeds=[e])] raises and posts nothing, no followup
    either. *)
Lemma send_after_responded_may_post_nothing :
  let s := Sample.state SlashContext false true in
  responded (self s) = true /\
  self_send Sample.both_embeds s
  = (Raised (IncorrectFormat "You can't use both `embed` and `embeds`!"), s) /\
  requests (log (snd (self_send Sample.both_embeds s))) = [].
Proof. cbv zeta. repeat split; reflexivity. Qed.

(** [send("hi", hidden=True)] on a new context makes one request, and
    returns since the dispatcher answers. *)
Lemma requests_per_call_witness :
  let s := Sample.state SlashContext false false in
  (exists r s', self_send Sample.hello_hidden s = (Returned r, s')) /\
  count_requests (log (snd (self_send Sample.hello_hidden s))) = 1%nat /\
  count_requests (log (snd (self_send Sample.hello_file s))) = 2%nat /\
  count_requests (log (snd (self_defer false None None s))) = 1%nat /\
  count_requests
    (log (snd (self_edit_origin Sample.edit_file
                 (Sample.state ComponentContext false false)))) = 2%nat.
Proof.
  cbv zeta.
  destruct (@requests_per_call Sample.discord) as (Hd & Hs & He & Hret).
  destruct (Hret sample_replies) as (_ & Hsend & _).
  split; [exact (Hsend Sample.hello_hidden _ _ eq_refl)|].
  split; [exact (Hs Sample.hello_hidden
                   (Sample.state SlashContext false false) _ _ eq_refl)|].
  split; [exact (Hs Sample.hello_file
                   (Sample.state SlashContext false false) _ _ eq_refl)|].
  split; [exact (Hd false None None
                   (Sample.state SlashContext false false) _ eq_refl)|].
  exact (He Sample.edit_file (Sample.state ComponentContext false false)
           _ eq_refl).
Defined.

(** C3, the run that contradicts it: [send("hi")] on a new context, visible
    and without attachments, never deferred, makes two requests -- the
    initial response and the edit that fetches the message. *)
Lemma plain_send_makes_two_requests :
  let s := Sample.state SlashContext false false in
  fresh (self s) /\ attachments Sample.hello = false /\
  (exists m, fst (self_send Sample.hello s) = Returned (SentMessage m)) /\
  requests (log (snd (self_send Sample.hello s)))
  = [ edit [] "token" None;
      post_initial_response
        [("type", JInt 4);
         ("data", JDict (send_base (self s) Sample.hello EmbedsNone))]
        1 "token" ] /\
  count_requests (log (snd (self_send Sample.hello s))) = 2%nat.
Proof.
  cbv zeta. split; [split; reflexivity|]. split; [reflexivity|].
  split; [eexists; reflexivity|]. split; reflexivity.
Qed.

(** [send(embed=e, embeds=[e])] on a new context. *)
Lemma send_embed_and_embeds_rejected_witness :
  let s := Sample.state ComponentContext false false in
  embed_given (embed Sample.both_embeds) = true /\
  embeds_truthy (embeds Sample.both_embeds) = true /\
  fst (self_send Sample.both_embeds s)
  = Raised (IncorrectFormat "You can't use both `embed` and `embeds`!") /\
  self (snd (self_send Sample.both_embeds s)) = self s /\
  requests (log (snd (self_send Sample.both_embeds s))) = requests (log s).
Proof.
  cbv zeta. split; [reflexivity|]. split; [reflexivity|].
  exact (@send_embed_and_embeds_rejected Sample.discord
           (Sample.state ComponentContext false false) Sample.both_embeds
           eq_refl eq_refl).
Defined.

(** [send("hi", hidden=True, delete_after=5.0)] on a new context. *)
Lemma send_delete_after_hidden_rejected_witness :
  let s := Sample.state SlashContext false false in
  float_truthy (delete_after Sample.hidden_delete) = true /\
  hidden Sample.hidden_delete = true /\
  (exists msg,
     fst (self_send Sample.hidden_delete s) = Raised (IncorrectFormat msg)) /\
  self (snd (self_send Sample.hidden_delete s)) = self s /\
  requests (log (snd (self_send Sample.hidden_delete s))) = requests (log s).
Proof.
  cbv zeta. split; [reflexivity|]. split; [reflexivity|].
  exact (@send_delete_after_hidden_rejected Sample.discord
           (Sample.state SlashContext false false) Sample.hidden_delete
           eq_refl eq_refl).
Defined.

(** [edit_origin(content="done")] on a responded component context. *)
Lemma edit_origin_after_responded_rejected_witness :
  let s := Sample.state ComponentContext false true in
  cls (self s) = ComponentContext /\ responded (self s) = true /\
  snd (self_edit_origin Sample.edit_content s) = s /\
  fst (self_edit_origin Sample.edit_content s)
  = Raised (IncorrectFormat "Already responded").
Proof.
  cbv zeta. split; [reflexivity|]. split; [reflexivity|].
  exact (@edit_origin_after_responded_rejected Sample.discord
           Sample.edit_content (Sample.state ComponentContext false true)
           _ _ eq_refl eq_refl eq_refl).
Defined.

(** C7, the run that contradicts it: on a responded component context,
    [edit_origin(embed=e, embeds=[e])] raises "incorrect format" with the
    message of the argument check, not "Already responded". *)
Lemma edit_origin_after_responded_other_message :
  let s := Sample.state ComponentContext false true in
  responded (self s) = true /\
  self_edit_origin Sample.edit_both_embeds s
  = (Raised (IncorrectFormat "You can't use both `embed` and `embeds`!"), s) /\
  fst (self_edit_origin Sample.edit_both_embeds s)
  <> Raised (IncorrectFormat "Already responded").
Proof.
  cbv zeta. split; [reflexivity|]. split; [reflexivity|].
  cbn. discriminate.
Qed.

(** [defer], [send], [send] from a new slash context. *)
Lemma flags_never_both_true_witness :
  let s := Sample.state SlashContext false false in
  let ops := [CallDefer false None None; CallSend Sample.hello;
              CallSend Sample.hello] in
  fresh (self s) /\ consistent (self (run_calls ops s)).
Proof.
  cbv zeta. split; [split; reflexivity|].
  exact (proj1 (@flags_never_both_true Sample.discord
                  [CallDefer false None None; CallSend Sample.hello;
                   CallSend Sample.hello]
                  (Sample.state SlashContext false false)
                  (conj eq_refl eq_refl))).
Defined.

(** [send("hi", hidden=True)] on a deferred context. *)
Lemma send_hidden_returns_dictionary_witness :
  let s := Sample.state SlashContext true false in
  let s' := snd (self_send Sample.hello_hidden s) in
  hidden Sample.hello_hidden = true /\
  message (self s') = message (self s) /\ tasks (log s') = tasks (log s).
Proof.
  cbv zeta. split; [reflexivity|].
  destruct (proj1 (@send_hidden_returns_dictionary Sample.discord
                     Sample.hello_hidden
                     (Sample.state SlashContext true false) _ _ eq_refl)
              eq_refl) as (Hm & Ht & _).
  split; [exact Hm | exact Ht].
Defined.

(** C10, the run that contradicts it: [send("hi", hidden=True)] on a new
    context makes one request, to which the dispatcher here replies with an
    empty text; what [send] returns is not that reply but the empty
    dictionary. *)
Lemma hidden_initial_response_returns_placeholder :
  let s := Sample.state SlashContext false false in
  let posted :=
    post_initial_response
      [("type", JInt 4);
       ("data", JDict (send_base (self s) Sample.hello_hidden EmbedsNone))]
      1 "token" in
  hidden Sample.hello_hidden = true /\
  requests (log (snd (self_send Sample.hello_hidden s))) = [posted] /\
  http (log s) posted = Returned (JStr "") /\
  fst (self_send Sample.hello_hidden s) = Returned (RawResponse (JDict [])).
Proof. cbv zeta. repeat split; reflexivity. Qed.

(** A prompt on a new component context whose wait is cancelled. *)
Lemma prompt_cancelled_returns_confirm_witness :
  fst (prompt Sample.ask [] CancelledError
         (Sample.state ComponentContext false false))
  = Returned (Confirm None).
Proof.
  pose (sent := self_send (plain_send (prompt_embed Sample.ask) false None
                             (Some prompt_buttons))
                  (Sample.state ComponentContext false false)).
  pose (_message := match fst sent with
                    | Returned r => r
                    | Raised _ => RawResponse JNone
                    end).
  pose (message := match message_ref _message with
                   | Returned m => m
                   | Raised _ => NoMessage
                   end).
  rewrite (@prompt_cancelled_returns_confirm Sample.discord Sample.ask []
             CancelledError (Sample.state ComponentContext false false)
             (snd sent) (snd sent) _message message (Raised CancelledError)
             None eq_refl eq_refl eq_refl eq_refl).
  reflexivity.
Defined.

(** C8, the run that contradicts it: the wait of a prompt on a new slash
    context is cancelled; [prompt] posts the result, deletes its message
    and returns [None] -- it does not raise [CancelledError]. *)
Lemma prompt_swallows_cancellation :
  let run := prompt Sample.ask [] CancelledError
               (Sample.state SlashContext false false) in
  wait_for_component (prompt_author Sample.ask
                        (Sample.context SlashContext false false))
    [] CancelledError None = (Raised CancelledError, None) /\
  fst run = Returned (Confirm None) /\
  fst run <> Raised CancelledError.
Proof.
  cbv zeta. split; [reflexivity|]. split; [reflexivity|].
  cbn. discriminate.
Qed.

(** ** Closed examples of the further properties *)

(** A responded component context, after a [send], a [defer] and an
    [edit_origin]. *)
Lemma responded_is_final_witness :
  let s := Sample.state ComponentContext false true in
  let ops := [ CallSend Sample.hello; CallDefer false None None;
               CallEditOrigin Sample.edit_content ] in
  responded (self s) = true /\
  responded (self (run_calls ops s)) = true /\
  message (self (run_calls ops s)) = message (self s).
Proof.
  cbv zeta. split; [reflexivity|].
  exact (@responded_is_final Sample.discord
           [ CallSend Sample.hello; CallDefer false None None;
             CallEditOrigin Sample.edit_content ]
           (Sample.state ComponentContext false true) eq_refl).
Defined.

(** [send("hi")] on a deferred slash context. *)
Lemma send_returned_has_responded_witness :
  let s := Sample.state SlashContext true false in
  (exists r, fst (self_send Sample.hello s) = Returned r) /\
  responded (self (snd (self_send Sample.hello s))) = true /\
  deferred (self (snd (self_send Sample.hello s))) = false.
Proof.
  cbv zeta. split; [eexists; reflexivity|].
  destruct (@send_returned_has_responded Sample.discord Sample.hello
              (Sample.state SlashContext true false) _ _ eq_refl) as [H1 H2].
  split; [exact H1 | exact (H2 eq_refl)].
Defined.

(** [send("hi")] on a new context when the fetch fails. *)
Lemma send_fetch_failure_keeps_flags_witness :
  let s := Scenario.state Scenario.no_fetch SlashContext false false false in
  fst (self_send (Scenario.hello Scenario.no_fetch false) s)
  = Raised (HTTPException 404) /\
  fresh (self (snd (self_send (Scenario.hello Scenario.no_fetch false) s))) /\
  count_requests
    (log (snd (self_send (Scenario.hello Scenario.no_fetch false) s)))
  = 2%nat.
Proof.
  cbv zeta.
  rewrite (@send_fetch_failure_keeps_flags Scenario.no_fetch
             (Scenario.hello Scenario.no_fetch false)
             (Scenario.state Scenario.no_fetch SlashContext false false false)
             EmbedsNone None (JStr "") (HTTPException 404)
             (conj eq_refl eq_refl) eq_refl eq_refl eq_refl eq_refl eq_refl).
  split; [reflexivity|]. split; [split; reflexivity | reflexivity].
Defined.

(** [edit_origin(content="done")] on a new component context. *)
Lemma edit_origin_returned_has_responded_witness :
  let s := Sample.state ComponentContext false false in
  fst (self_edit_origin Sample.edit_content s) = Returned tt /\
  responded (self (snd (self_edit_origin Sample.edit_content s))) = true /\
  deferred (self (snd (self_edit_origin Sample.edit_content s))) = false.
Proof.
  cbv zeta. split; [reflexivity|].
  exact (proj2 (proj2 (@edit_origin_returned_has_responded Sample.discord
                         Sample.edit_content
                         (Sample.state ComponentContext false false) _
                         eq_refl))).
Defined.

(** [edit_origin(embed=e, embeds=[e])] on a deferred component context. *)
Lemma edit_origin_rejected_changes_nothing_witness :
  let s := Sample.state ComponentContext true false in
  self_edit_origin Sample.edit_both_embeds s
  = (Raised (IncorrectFormat "You can't use both `embed` and `embeds`!"), s).
Proof.
  cbv zeta.
  exact (proj1 (@edit_origin_rejected_changes_nothing Sample.discord
                  Sample.edit_both_embeds
                  (Sample.state ComponentContext true false) _
                  eq_refl eq_refl)).
Defined.

(** [defer(hidden=True, edit_origin=True)] on a new component context. *)
Lemma defer_rejected_changes_nothing_witness :
  let s := Sample.state ComponentContext false false in
  defer_accepts ComponentContext true (Some true) None = false /\
  exists x, self_defer true (Some true) None s = (Raised x, s).
Proof.
  cbv zeta. split; [reflexivity|].
  destruct (@defer_rejected_changes_nothing Sample.discord true (Some true)
              None (Sample.state ComponentContext false false)
              (conj eq_refl eq_refl) eq_refl) as [x [E _]].
  exists x. exact E.
Defined.

(** [send("hi")] passes the checks, [send(embed=e, embeds=[e])] does not. *)
Lemma send_checks_accept_witness :
  send_checks Sample.hello = Returned (EmbedsNone, None) /\
  exists msg, send_checks Sample.both_embeds = Raised (IncorrectFormat msg).
Proof.
  split.
  - exact (proj1 (@send_checks_accept Sample.discord Sample.hello) eq_refl).
  - exact (proj2 (@send_checks_accept Sample.discord Sample.both_embeds)
             eq_refl).
Defined.

(** [send("hi", hidden=True, delete_after=5.0)] on a deferred context. *)
Lemma send_rejected_changes_nothing_witness :
  let s := Sample.state SlashContext true false in
  send_accepts Sample.hidden_delete = false /\
  self (snd (self_send Sample.hidden_delete s)) = self s /\
  requests (log (snd (self_send Sample.hidden_delete s))) = [].
Proof.
  cbv zeta. split; [reflexivity|].
  destruct (@send_rejected_changes_nothing Sample.discord Sample.hidden_delete
              (Sample.state SlashContext true false) _ _ eq_refl eq_refl)
    as (_ & Hs & Hr & _).
  split; [exact Hs | exact Hr].
Defined.

(** [edit_origin(content="done", file=a_file)] passes the checks,
    [edit_origin(embed=e, embeds=[e])] does not. *)
Lemma edit_origin_fields_accept_witness :
  (exists body,
     edit_origin_fields (Sample.context ComponentContext false false)
       Sample.edit_file = Returned (body, Some [Sample.a_file])) /\
  exists msg,
    edit_origin_fields (Sample.context ComponentContext false false)
      Sample.edit_both_embeds = Raised (IncorrectFormat msg).
Proof.
  split.
  - exact (proj1 (@edit_origin_fields_accept Sample.discord
                    (Sample.context ComponentContext false false)
                    Sample.edit_file) eq_refl).
  - exact (proj2 (@edit_origin_fields_accept Sample.discord
                    (Sample.context ComponentContext false false)
                    Sample.edit_both_embeds) eq_refl).
Defined.

(** [send("hi", file=a_file)] on a new context closes the file. *)
Lemma send_closes_files_witness :
  let s := Sample.state SlashContext false false in
  closes (log (snd (self_send Sample.hello_file s))) = [Sample.a_file].
Proof.
  cbv zeta.
  exact (@send_closes_files Sample.discord Sample.hello_file
           (Sample.state SlashContext false false) (Returned _) _ eq_refl).
Defined.

(** [send("hi")] on a deferred context. *)
Lemma send_after_defer_edits_witness :
  let s := Sample.state SlashContext true false in
  requests (log (snd (self_send Sample.hello s)))
  = [edit (send_base (self s) Sample.hello EmbedsNone) "token" None].
Proof.
  cbv zeta.
  exact (proj1 (@send_after_defer_edits Sample.discord Sample.hello
                  (Sample.state SlashContext true false) _ _
                  eq_refl eq_refl eq_refl eq_refl)).
Defined.

(** A hidden [send] on a new context returns the empty dictionary, of
    which [prompt] keeps [None]; the cleanup that is to delete it raises. *)
Lemma hidden_prompt_cleanup_raises_witness :
  let s := Sample.state SlashContext false false in
  fst (self_send Sample.hello_hidden s) = Returned (RawResponse (JDict [])) /\
  message_ref (RawResponse (JDict [])) = Returned NoMessage /\
  exists x,
    fst (_cleanup NoMessage prompt_buttons None true false true
           (snd (self_send Sample.hello_hidden s))) = Raised x.
Proof.
  cbv zeta. split; [reflexivity|]. split; [reflexivity|].
  exact (proj2 (@hidden_prompt_cleanup_raises Sample.discord
                  Sample.hello_hidden (Sample.state SlashContext false false)
                  _ _ NoMessage eq_refl eq_refl eq_refl)
           prompt_buttons None false true
           (snd (self_send Sample.hello_hidden
                   (Sample.state SlashContext false false)))
           _ _ (surjective_pairing _)).
Defined.

(** The cleanup that is to keep the message, on a responded component
    context. *)
Lemma cleanup_on_responded_context_raises_witness :
  let s := Sample.state ComponentContext false true in
  responded (self s) = true /\
  exists x,
    fst (_cleanup NoMessage prompt_buttons (Some true) false false false s)
    = Raised x.
Proof.
  cbv zeta. split; [reflexivity|].
  exact (proj1 (@cleanup_on_responded_context_raises Sample.discord NoMessage
                  prompt_buttons (Some true) false false
                  (Sample.state ComponentContext false true) _ _
                  eq_refl (surjective_pairing _))).
Defined.

(** The author presses the green button of a prompt on a new slash
    context. *)
Lemma prompt_returns_answer_witness :
  exists s',
    prompt Sample.ask [Scenario.click] TimeoutError
      (Sample.state SlashContext false false)
    = (Returned (Confirm (Some true)), s').
Proof.
  pose (s := Sample.state SlashContext false false).
  pose (sent := self_send (plain_send (prompt_embed Sample.ask) false None
                             (Some prompt_buttons)) s).
  pose (_message := match fst sent with
                    | Returned r => r
                    | Raised _ => RawResponse JNone
                    end).
  pose (message := match message_ref _message with
                   | Returned m => m
                   | Raised _ => NoMessage
                   end).
  pose (arrived := Returned (Sample.context ComponentContext false false)
                   : Outcome Ctx).
  pose (tried := prompt_attempt Sample.ask arrived (snd sent)).
  exact (proj1 (@prompt_returns_answer Sample.discord Sample.ask
                  [Scenario.click] TimeoutError s (snd sent) (snd tried)
                  _message message arrived (Some true)
                  eq_refl eq_refl eq_refl)
           (Continue (Some (self (snd (self_defer false None None
                                         (Sample.state ComponentContext
                                            false false))))) false)
           eq_refl).
Defined.

(** The wait of a prompt that is to keep its message is cancelled. *)
Lemma prompt_cancelled_without_delete_raises_witness :
  exists x s',
    prompt Scenario.ask_keep [] CancelledError
      (Sample.state ComponentContext false false)
    = (Raised x, s').
Proof.
  pose (s := Sample.state ComponentContext false false).
  pose (sent := self_send (plain_send (prompt_embed Scenario.ask_keep) false
                             None (Some prompt_buttons)) s).
  pose (_message := match fst sent with
                    | Returned r => r
                    | Raised _ => RawResponse JNone
                    end).
  pose (message := match message_ref _message with
                   | Returned m => m
                   | Raised _ => NoMessage
                   end).
  exact (@prompt_cancelled_without_delete_raises Sample.discord
           Scenario.ask_keep [] CancelledError s (snd sent) (snd sent)
           _message message (Raised CancelledError) None
           eq_refl eq_refl eq_refl eq_refl eq_refl).
Defined.

(** The buttons of the prompt. *)
Lemma disable_rows_disables_every_button_witness :
  exists rows',
    disable_rows prompt_buttons = Returned rows' /\
    disable_rows rows' = Returned rows'.
Proof.
  assert (H : Forall (fun row =>
                        exists bs,
                          dict_get "components" row = Some (JList bs) /\
                          Forall (fun b => exists kv, b = JDict kv) bs)
                prompt_buttons).
  { repeat constructor. eexists. split; [reflexivity|].
    repeat constructor; eexists; reflexivity. }
  destruct (disable_rows_disables_every_button prompt_buttons H)
    as (rows' & E & _ & Hidem).
  exists rows'. split; [exact E | exact Hidem].
Defined.

(** A warning titled "Careful", then a warning without a title. *)
Lemma generate_result_embed_title_sticks_witness :
  let values1 :=
    snd (generate_result_embed_on declared "first" warning (Some "Careful")
           false) in
  title (fst (generate_result_embed_on values1 "second" warning None false))
  = Some "Careful".
Proof.
  cbv zeta.
  assert (H : "Careful" <> "") by discriminate.
  exact (proj1 (@generate_result_embed_title_sticks Sample.discord declared
                  "first" "second" warning "Careful" false false H)).
Defined.

(** The first call of the module, on the dictionaries as declared. *)
Lemma generate_result_embed_untitled_witness :
  fst (generate_result_embed_on declared "Took too long" error None false)
  = generate_result_embed "Took too long" error false.
Proof.
  assert (H : forall t,
             (kw_color (declared t), kw_title (declared t))
             = EmbedType_value t) by (intros []; reflexivity).
  exact (proj1 (@generate_result_embed_untitled Sample.discord declared
                  "Took too long" error None false H (or_introl eq_refl))).
Defined.

(** [Message(id=1, content="hi")] *)
Lemma Message_holds_its_keywords_witness :
  exists obj,
    construct Message Scenario.message_keywords = Returned obj /\
    getattr obj "content" = Returned (JStr "hi") /\
    getattr obj "author" = Raised (AttributeError "author").
Proof.
  assert (H : NoDup (map fst Scenario.message_keywords)).
  { repeat constructor; cbn; intuition discriminate. }
  destruct (Message_holds_its_keywords Message Scenario.message_keywords
              (or_introl eq_refl) H) as (obj & E & Hget).
  exists obj. split; [exact E|]. split.
  - exact (Hget "content").
  - exact (Hget "author").
Defined.

(** [MessageActivity()], and [MessageActivity(type=1)]. *)
Lemma slotted_models_start_empty_witness :
  construct MessageActivity [] = Returned (allocate MessageActivity) /\
  (exists msg,
     construct MessageActivity [("type", JInt 1)] = Raised (TypeError msg)) /\
  getattr (allocate MessageActivity) "type" = Raised (AttributeError "type").
Proof.
  destruct (slotted_models_start_empty MessageActivity (or_introl eq_refl))
    as (Hnew & Hget & _).
  split; [exact (proj1 (Hnew []) eq_refl)|].
  split; [|exact (Hget "type")].
  apply (proj2 (Hnew [("type", JInt 1)])). discriminate.
Defined.

(** A hidden [defer], then a visible [send] and a [defer]. *)
Lemma deferred_hidden_never_reset_witness :
  let s := Scenario.state Sample.discord SlashContext true false true in
  let ops := [CallSend Sample.hello; CallDefer false None None] in
  _deferred_hidden (self s) = true /\
  _deferred_hidden (self (run_calls ops s)) = true.
Proof.
  cbv zeta. split; [reflexivity|].
  exact (@deferred_hidden_never_reset Sample.discord
           [CallSend Sample.hello; CallDefer false None None]
           (Scenario.state Sample.discord SlashContext true false true)
           eq_refl).
Defined.

(** [defer(hidden=True)] on a new slash context while the dispatcher is
    down. *)
Lemma failed_hidden_defer_leaves_its_mark_witness :
  let s := Scenario.state Scenario.down SlashContext false false false in
  exists s',
    self_defer true None None s = (Raised (HTTPException 503), s') /\
    _deferred_hidden (self s) = false /\
    _deferred_hidden (self s') = true.
Proof.
  cbv zeta.
  destruct (@failed_hidden_defer_leaves_its_mark Scenario.down None None
              (Scenario.state Scenario.down SlashContext false false false)
              (HTTPException 503) (conj eq_refl eq_refl) eq_refl
              (fun _ => eq_refl)) as (s' & E & _ & Hm & _).
  exists s'. split; [exact E|]. split; [reflexivity | exact Hm].
Defined.

(** A visible [defer], then [send("hi", hidden=True)]. *)
Lemma send_after_defer_warns_on_mismatch_witness :
  let s := Sample.state SlashContext true false in
  warnings (log (snd (self_send Sample.hello_hidden s)))
  = [hidden_mismatch_msg].
Proof.
  cbv zeta.
  exact (@send_after_defer_warns_on_mismatch Sample.discord
           Sample.hello_hidden (Sample.state SlashContext true false) _ _
           eq_refl eq_refl eq_refl eq_refl).
Defined.

(** [send("hi", file=a_file)] on a new component context. *)
Lemma send_without_defer_never_warns_witness :
  let s := Sample.state ComponentContext false false in
  warnings (log (snd (self_send Sample.hello_file s))) = [].
Proof.
  cbv zeta.
  exact (@send_without_defer_never_warns Sample.discord Sample.hello_file
           (Sample.state ComponentContext false false) _ _
           eq_refl eq_refl eq_refl).
Defined.

(** [edit_origin(content="done")] on a new component context. *)
Lemma edit_origin_requests_by_state_witness :
  let s := Sample.state ComponentContext false false in
  exists body,
    requests (log (snd (self_edit_origin Sample.edit_content s)))
    = [post_initial_response [("type", JInt 7); ("data", JDict body)]
         1 "token"].
Proof.
  cbv zeta. eexists.
  exact (@edit_origin_requests_by_state Sample.discord Sample.edit_content
           (Sample.state ComponentContext false false) _ None _ _
           eq_refl eq_refl eq_refl eq_refl).
Defined.

(** [edit_origin(content="done", file=a_file)] on a new component
    context. *)
Lemma edit_origin_closes_files_witness :
  let s := Sample.state ComponentContext false false in
  closes (log (snd (self_edit_origin Sample.edit_file s))) = [Sample.a_file].
Proof.
  cbv zeta.
  exact (@edit_origin_closes_files Sample.discord Sample.edit_file
           (Sample.state ComponentContext false false) _
           (Some [Sample.a_file]) (Returned tt) _ eq_refl eq_refl eq_refl).
Defined.
